(** * PDF outline extractor: a shallow embedding of [main.py]

    The development follows [PDFOutlineExtractor] method by method.

    - Text is a [string] whose characters are the code points U+0000 to
      U+00FF; [lower], [isupper], [strip] and the character classes of
      the regular expressions are Python's, restricted to that range.
    - Font sizes and coordinates are rationals ([Q]); the initial
      [float('inf')] of the title scan is a separate constructor.
    - [page.get_text] and [fitz.open] may raise: they return a [result].
      What is raised is of class [Exception] or outside it.
    - [extract_outline] runs on a [World] that records the document
      handles currently open, the console output, and on which lines
      writing to standard output raises. *)

From Stdlib Require Import String Ascii List ZArith QArith Lia Bool.
From Stdlib Require Import Sorting.Sorted Sorting.Permutation.
From stdpp Require Import gmap strings.
Import ListNotations.

Local Close Scope Q_scope.
Local Open Scope string_scope.
Local Open Scope list_scope.

(** ** Python string operations *)

Module PyStr.

Definition code (c : ascii) : nat := nat_of_ascii c.

Definition between (lo hi : nat) (c : ascii) : bool :=
  (lo <=? code c)%nat && (code c <=? hi)%nat.

(** [str.isspace] on one character: TAB..CR, FS..US, space, NEL, NBSP. *)
Definition isspace (c : ascii) : bool :=
  between 9 13 c || between 28 31 c || (code c =? 32)%nat
  || (code c =? 133)%nat || (code c =? 160)%nat.

(** Characters with an upper-case to lower-case mapping:
    A-Z and U+00C0..U+00DE without the multiplication sign U+00D7. *)
Definition is_upper_char (c : ascii) : bool :=
  between 65 90 c || (between 192 222 c && negb (code c =? 215)%nat).

(** Characters with the Lowercase property: a-z, the ordinal indicators
    U+00AA and U+00BA, the micro sign U+00B5, and U+00DF..U+00FF without
    the division sign U+00F7. *)
Definition is_lower_char (c : ascii) : bool :=
  between 97 122 c || (code c =? 170)%nat || (code c =? 181)%nat
  || (code c =? 186)%nat
  || (between 223 255 c && negb (code c =? 247)%nat).

Definition lower_char (c : ascii) : ascii :=
  if is_upper_char c then ascii_of_nat (code c + 32) else c.

(** [s.lower()] *)
Fixpoint lower (s : string) : string :=
  match s with
  | EmptyString => EmptyString
  | String c s' => String (lower_char c) (lower s')
  end.

(** [s.isupper()]: no lower-case character and at least one upper-case
    one; [cased] is the flag of CPython's loop. *)
Fixpoint isupper_from (cased : bool) (s : string) : bool :=
  match s with
  | EmptyString => cased
  | String c s' =>
      if is_lower_char c then false
      else isupper_from (cased || is_upper_char c) s'
  end.

Definition isupper (s : string) : bool := isupper_from false s.

(** [s.lstrip()], [s.rstrip()], [s.strip()] *)
Fixpoint lstrip (s : string) : string :=
  match s with
  | EmptyString => EmptyString
  | String c s' => if isspace c then lstrip s' else s
  end.

Fixpoint rstrip (s : string) : string :=
  match s with
  | EmptyString => EmptyString
  | String c s' =>
      match rstrip s' with
      | EmptyString => if isspace c then EmptyString else String c EmptyString
      | r => String c r
      end
  end.

Definition strip (s : string) : string := rstrip (lstrip s).

(** [pat in s] *)
Fixpoint contains (pat s : string) : bool :=
  String.prefix pat s
  || match s with
     | EmptyString => false
     | String _ s' => contains pat s'
     end.

(** [s.startswith(pat)] *)
Definition startswith (s pat : string) : bool := String.prefix pat s.

(** [any(p in s for p in pats)] *)
Definition any_in (pats : list string) (s : string) : bool :=
  existsb (fun p => contains p s) pats.

Definition len (s : string) : nat := String.length s.

End PyStr.

(** ** The fragment of [re] used by the heuristics *)

Module Re.

Inductive re : Type :=
| Bol                              (* ^ *)
| Eol                              (* $ *)
| Cls (p : ascii -> bool)          (* one character of a class *)
| Seq (a b : re)
| Opt (a : re)                     (* a? *)
| Star (a : re)                    (* a* *)
| Plus (a : re).                   (* a+ *)

(** A matcher state: how many characters were consumed, and what is left. *)
Definition st : Type := nat * string.

Definition newline : ascii := ascii_of_nat 10.

(** [$] holds at the end of the text and just before a final newline. *)
Definition at_eol (s : string) : bool :=
  match s with
  | EmptyString => true
  | String c EmptyString => Ascii.eqb c newline
  | _ => false
  end.

Definition progress (from : st) (to : st) : bool := (fst from <? fst to)%nat.

(** [closure step n y]: the states reached from [y] by at most [n]
    rounds of [step], each round having to consume something. *)
Fixpoint closure (step : st -> list st) (n : nat) (y : st) : list st :=
  match n with
  | O => [y]
  | S n' =>
      flat_map (closure step n') (List.filter (progress y) (step y)) ++ [y]
  end.

(** [ends r x]: every state in which a match of [r] started in [x] can
    end. A repetition runs at most once per remaining character. *)
Fixpoint ends (r : re) (x : st) : list st :=
  match r with
  | Bol => if (fst x =? 0)%nat then [x] else []
  | Eol => if at_eol (snd x) then [x] else []
  | Cls p =>
      match snd x with
      | String c s' => if p c then [(S (fst x), s')] else []
      | EmptyString => []
      end
  | Seq a b => flat_map (ends b) (ends a x)
  | Opt a => ends a x ++ [x]
  | Star a => closure (ends a) (String.length (snd x)) x
  | Plus a =>
      flat_map (fun y => closure (ends a) (String.length (snd y)) y)
               (ends a x)
  end.

(** [re.match(r, s)] as a truth value *)
Definition matches (r : re) (s : string) : bool :=
  match ends r (0%nat, s) with
  | [] => false
  | _ :: _ => true
  end.

(** Character classes. [\d] and [\s] are the Unicode classes of a [str]
    pattern; below U+0100 the decimal digits are 0-9. *)
Definition digit (c : ascii) : bool := PyStr.between 48 57 c.
Definition space (c : ascii) : bool := PyStr.isspace c.
Definition az (c : ascii) : bool := PyStr.between 97 122 c.
Definition AZ (c : ascii) : bool := PyStr.between 65 90 c.
Definition alpha (c : ascii) : bool := AZ c || az c.
Definition dot (c : ascii) : bool := negb (Ascii.eqb c newline).
Definition lit (a : ascii) (c : ascii) : bool := Ascii.eqb c a.
Definition MKB (c : ascii) : bool := lit "M" c || lit "K" c || lit "B" c.
Definition AZ_or_space (c : ascii) : bool := AZ c || space c.

Declare Scope re_scope.
Delimit Scope re_scope with re.
Bind Scope re_scope with re.
Infix ">>>" := Seq (at level 60, right associativity) : re_scope.

Local Open Scope re_scope.

Definition d : re := Cls digit.
Definition ch (a : ascii) : re := Cls (lit a).

(** The patterns of [_is_obviously_not_heading], in source order. *)

(* ^RFP:.*\d{4}$ *)
Definition rfp_year : re :=
  Bol >>> ch "R" >>> ch "F" >>> ch "P" >>> ch ":" >>> Star (Cls dot)
  >>> d >>> d >>> d >>> d >>> Eol.

(* ^\d+$ *)
Definition all_digits : re := Bol >>> Plus d >>> Eol.

(* ^\d+\.\s*[a-z] *)
Definition list_item : re :=
  Bol >>> Plus d >>> ch "." >>> Star (Cls space) >>> Cls az.

(* ^\d+\.\d+\s*[A-Za-z] *)
Definition sub_item : re :=
  Bol >>> Plus d >>> ch "." >>> Plus d >>> Star (Cls space) >>> Cls alpha.

(* ^\$?\d+[MKB]?\$?\d+[MKB]?$ *)
Definition money_pair : re :=
  Bol >>> Opt (ch "$") >>> Plus d >>> Opt (Cls MKB)
  >>> Opt (ch "$") >>> Plus d >>> Opt (Cls MKB) >>> Eol.

(* ^[A-Z\s]+\$\d+[MKB] *)
Definition caps_money : re :=
  Bol >>> Plus (Cls AZ_or_space) >>> ch "$" >>> Plus d >>> Cls MKB.

(** The pattern of [_is_likely_heading]. *)

(* ^\d+\.(\d+)?\s+[A-Za-z] *)
Definition numbered_heading : re :=
  Bol >>> Plus d >>> ch "." >>> Opt (Plus d) >>> Plus (Cls space)
  >>> Cls alpha.

End Re.

(** ** Results of calls that may raise *)

(** What is raised: an instance of class [Exception], which the clause
    [except Exception] catches, or an exception outside that class, such
    as [KeyboardInterrupt], which it lets through. *)
Inductive exn : Type :=
| Exception (msg : string)
| BaseException (msg : string).

Definition str_exn (e : exn) : string :=
  match e with
  | Exception m => m
  | BaseException m => m
  end.

(** [isinstance(e, Exception)] *)
Definition is_Exception (e : exn) : bool :=
  match e with
  | Exception _ => true
  | BaseException _ => false
  end.

Inductive result (A : Type) : Type :=
| Ok (a : A)
| Raise (e : exn).

Arguments Ok {A} a.
Arguments Raise {A} e.

#[global] Instance result_ret : MRet result := fun A a => Ok a.

#[global] Instance result_bind : MBind result := fun A B k r =>
  match r with
  | Ok a => k a
  | Raise e => Raise e
  end.

(** ** What PyMuPDF hands to the extractor *)

Record Span : Type := {
  span_text : string;
  span_size : Q;
  span_flags : Z;
  span_bbox : Q * Q * Q * Q
}.

Record Line : Type := { spans : list Span }.

(** A block of the page dictionary; an image block has no ["lines"] key. *)
Inductive Block : Type :=
| TextBlock (lines : list Line)
| ImageBlock.

Record Page : Type := {
  get_text_dict : result (list Block);   (* page.get_text("dict")["blocks"] *)
  get_text : result string               (* page.get_text() *)
}.

Record Document : Type := {
  doc_name : string;
  doc_pages : list Page
}.

(** [bbox[1]] *)
Definition bbox_top (b : Q * Q * Q * Q) : Q :=
  match b with (_, y0, _, _) => y0 end.

(** [span["flags"] & 2**4], as a truth value *)
Definition bold_flag (flags : Z) : bool := negb (Z.land flags (2 ^ 4) =? 0)%Z.

Definition Qgt_bool (a b : Q) : bool := negb (Qle_bool a b).
Definition Qlt_bool (a b : Q) : bool := negb (Qle_bool b a).

(** [max(a, b)] and [min(a, b)] return their first argument unless the
    second is strictly better. *)
Definition py_max (a b : Q) : Q := if Qgt_bool b a then b else a.

(** The running minimum of the title scan starts at [float('inf')]. *)
Inductive ypos : Type :=
| PosInf
| Finite (q : Q).

Definition py_min (a : ypos) (b : Q) : ypos :=
  match a with
  | PosInf => Finite b
  | Finite q => if Qlt_bool b q then Finite b else Finite q
  end.

Definition ypos_lt (a : ypos) (bound : Q) : bool :=
  match a with
  | PosInf => false
  | Finite q => Qlt_bool q bound
  end.

(** ** [_extract_title] *)

Record TitleCandidate : Type := {
  tc_text : string;
  tc_size : Q;
  tc_bold : bool;
  tc_position : ypos
}.

(** One round of the span loop of [_extract_title]. *)
Definition title_span (acc : TitleCandidate) (s : Span) : TitleCandidate :=
  {| tc_text := tc_text acc ++ span_text s;
     tc_size := py_max (tc_size acc) (span_size s);
     tc_bold := if bold_flag (span_flags s) then true else tc_bold acc;
     tc_position := py_min (tc_position acc) (bbox_top (span_bbox s)) |}.

Definition title_block_init : TitleCandidate :=
  {| tc_text := ""; tc_size := 0%Q; tc_bold := false; tc_position := PosInf |}.

Definition title_scan (lines : list Line) : TitleCandidate :=
  fold_left (fun acc line => fold_left title_span (spans line) acc)
            lines title_block_init.

(** One round of the block loop: the candidates gathered so far, extended
    when the stripped text has between 11 and 199 characters. *)
Definition title_block (candidates : list TitleCandidate) (b : Block)
  : list TitleCandidate :=
  match b with
  | ImageBlock => candidates
  | TextBlock lines =>
      let acc := title_scan lines in
      let block_text := PyStr.strip (tc_text acc) in
      if (10 <? PyStr.len block_text)%nat && (PyStr.len block_text <? 200)%nat
      then candidates ++ [ {| tc_text := block_text;
                              tc_size := tc_size acc;
                              tc_bold := tc_bold acc;
                              tc_position := tc_position acc |} ]
      else candidates
  end.

Definition title_candidates (blocks : list Block) : list TitleCandidate :=
  fold_left title_block blocks [].

Definition title_score (c : TitleCandidate) : Z :=
  let score := 0%Z in
  let score := if tc_bold c then (score + 3)%Z else score in
  let score := if Qgt_bool (tc_size c) 16%Q then (score + 2)%Z
               else if Qgt_bool (tc_size c) 14%Q then (score + 1)%Z
               else score in
  let score := if ypos_lt (tc_position c) 200%Q then (score + 2)%Z else score in
  score.

(** [max(xs, key=key)] on a list that starts with [x]: the first element
    whose key is the largest. *)
Definition py_max_by {A} (key : A -> Z) (x : A) (xs : list A) : A :=
  fold_left (fun best c => if (key best <? key c)%Z then c else best) xs x.

Definition pick_title (candidates : list TitleCandidate) : string :=
  match candidates with
  | [] => ""
  | c :: cs =>
      let best_candidate := py_max_by title_score c cs in
      if (2 <? title_score best_candidate)%Z then tc_text best_candidate
      else ""
  end.

Definition _extract_title (doc : Document) : result string :=
  match doc_pages doc with
  | [] => Ok ""
  | first_page :: _ =>
      blocks ← get_text_dict first_page;
      Ok (pick_title (title_candidates blocks))
  end.

(** ** [_is_obviously_not_heading] and [_is_likely_heading] *)

Definition garbage_patterns : list string :=
  [ "............................................................................";
    "...............................................................";
    ".........................................";
    "www."; ".com"; ".org" ].

Definition form_patterns : list string :=
  [ "name of the government servant"; "designation"; "service";
    "pay + si + npa"; "whether permanent or temporary";
    "home town as recorded"; "amount of advance required" ].

(** The first literal of the bullet test is the three code points U+00E2,
    U+20AC, U+00A2. U+20AC is not a character of [string], so no text of
    this embedding starts with it. *)
Definition startswith_bullet (text : string) : bool := false.

Definition _is_obviously_not_heading (text : string) : bool :=
  if (PyStr.len text <? 3)%nat || (200 <? PyStr.len text)%nat then true
  else if existsb (fun pattern => PyStr.contains pattern text) garbage_patterns
  then true
  else if existsb (fun pattern => PyStr.contains pattern (PyStr.lower text))
                  form_patterns
  then true
  else if Re.matches Re.rfp_year text || Re.matches Re.all_digits text
  then true
  else if (100 <? PyStr.len text)%nat
          && existsb (fun char => PyStr.contains char text) ["."; ","; ";"; ":"]
  then true
  else if startswith_bullet text || PyStr.startswith text "-"
          || PyStr.startswith text "*"
  then true
  else if Re.matches Re.list_item (PyStr.lower text) then true
  else if Re.matches Re.sub_item text then true
  else if Re.matches Re.money_pair text then true
  else if Re.matches Re.caps_money text then true
  else false.

Definition tech_headings : list string :=
  [ "revision history"; "table of contents"; "acknowledgements";
    "introduction"; "references"; "trademarks"; "documents";
    "intended audience"; "career paths"; "learning objectives";
    "entry requirements"; "structure and course duration";
    "keeping it current"; "business outcomes"; "content" ].

Definition business_headings : list string :=
  [ "background"; "summary"; "milestones"; "approach";
    "evaluation"; "appendix"; "terms of reference" ].

Definition _is_likely_heading (text : string) (size : Q) (is_bold : bool)
    (doc_text_lower : string) : bool :=
  if Re.matches Re.numbered_heading text then true
  else if PyStr.isupper text && (5 <? PyStr.len text)%nat then true
  else if is_bold && Qgt_bool size 14%Q then true
  else if Qgt_bool size 16%Q then true
  else if PyStr.contains "foundation level" doc_text_lower then
    existsb (fun heading => PyStr.contains heading (PyStr.lower text))
            tech_headings
  else if PyStr.contains "rfp" doc_text_lower
          || PyStr.contains "digital library" doc_text_lower then
    existsb (fun heading => PyStr.contains heading (PyStr.lower text))
            business_headings
  else if PyStr.contains "pathway options" doc_text_lower
          || PyStr.contains "stem pathways" doc_text_lower then
    PyStr.contains "pathway options" (PyStr.lower text)
  else if PyStr.contains "hope to see you" doc_text_lower
          || PyStr.contains "rsvp" doc_text_lower then
    PyStr.contains "hope to see you there" (PyStr.lower text)
  else false.

(** ** [_extract_headings_from_page] *)

Record Heading : Type := {
  h_text : string;
  h_size : Q;
  h_bold : bool;
  h_page : nat
}.

Record HeadingAcc : Type := {
  acc_text : string;
  acc_size : Q;
  acc_bold : bool
}.

Definition heading_span (acc : HeadingAcc) (s : Span) : HeadingAcc :=
  {| acc_text := acc_text acc ++ span_text s;
     acc_size := py_max (acc_size acc) (span_size s);
     acc_bold := if bold_flag (span_flags s) then true else acc_bold acc |}.

Definition heading_scan (lines : list Line) : HeadingAcc :=
  fold_left (fun acc line => fold_left heading_span (spans line) acc)
            lines {| acc_text := ""; acc_size := 0%Q; acc_bold := false |}.

Definition heading_block (page_num : nat) (doc_text_lower : string)
    (headings : list Heading) (b : Block) : list Heading :=
  match b with
  | ImageBlock => headings
  | TextBlock lines =>
      let acc := heading_scan lines in
      let block_text := PyStr.strip (acc_text acc) in
      if String.eqb block_text "" || (PyStr.len block_text <? 3)%nat
         || (200 <? PyStr.len block_text)%nat
      then headings
      else if _is_obviously_not_heading block_text then headings
      else if _is_likely_heading block_text (acc_size acc) (acc_bold acc)
                                 doc_text_lower
      then headings ++ [ {| h_text := block_text;
                            h_size := acc_size acc;
                            h_bold := acc_bold acc;
                            h_page := page_num |} ]
      else headings
  end.

Definition _extract_headings_from_page (page : Page) (page_num : nat)
    (doc_text_lower : string) : result (list Heading) :=
  blocks ← get_text_dict page;
  Ok (fold_left (heading_block page_num doc_text_lower) blocks []).

(** ** [_filter_headings] *)

Inductive Level : Type := H1 | H2 | H3.

Record Entry : Type := {
  level : Level;
  text : string;
  page : nat
}.

(** One round of the deduplication loop: [seen] and [unique_headings]. *)
Definition dedup_step (st : gset string * list Heading) (heading : Heading)
  : gset string * list Heading :=
  let text := PyStr.strip (h_text heading) in
  if decide (text ∈ st.1) then st
  else ({[ text ]} ∪ st.1, st.2 ++ [heading]).

Definition unique_headings (headings : list Heading) : list Heading :=
  (fold_left dedup_step headings (∅, [])).2.

(** The early [return] of the two single-heading profiles. *)
Fixpoint single_heading (keyword : string) (unique : list Heading)
  : list Entry :=
  match unique with
  | [] => []
  | heading :: rest =>
      if PyStr.contains keyword (PyStr.lower (h_text heading))
      then [ {| level := H1; text := h_text heading; page := 0 |} ]
      else single_heading keyword rest
  end.

Definition level_of (doc_text_lower : string) (heading : Heading) : Level :=
  let text := PyStr.lower (h_text heading) in
  if PyStr.contains "rfp" doc_text_lower
     || PyStr.contains "digital library" doc_text_lower
  then
    if existsb (fun section => PyStr.contains section text)
         ["summary"; "background"; "milestones"; "approach"; "evaluation"]
    then H1
    else if existsb (fun section => PyStr.contains section text)
              ["appendix"; "terms of reference"; "membership"]
    then H2
    else H3
  else
    if Qgt_bool (h_size heading) 16%Q then H1
    else if Qgt_bool (h_size heading) 14%Q then H2
    else H3.

Definition to_entry (doc_text_lower : string) (heading : Heading) : Entry :=
  {| level := level_of doc_text_lower heading;
     text := h_text heading;
     page := h_page heading |}.

(** [result.sort(key=lambda x: x["page"])]: the sort is stable, so the
    sorted list is the one insertion from the right produces. *)
Fixpoint insert_by_page (e : Entry) (l : list Entry) : list Entry :=
  match l with
  | [] => [e]
  | x :: xs =>
      if (page e <=? page x)%nat then e :: l else x :: insert_by_page e xs
  end.

Definition sort_by_page (l : list Entry) : list Entry :=
  fold_right insert_by_page [] l.

Definition _filter_headings (headings : list Heading)
    (doc_text_lower : string) : list Entry :=
  match headings with
  | [] => []
  | _ :: _ =>
      let unique := unique_headings headings in
      if PyStr.contains "pathway options" doc_text_lower
         || PyStr.contains "stem pathways" doc_text_lower
      then single_heading "pathway options" unique
      else if PyStr.contains "hope to see you" doc_text_lower
              || PyStr.contains "rsvp" doc_text_lower
      then single_heading "hope to see you there" unique
      else sort_by_page (map (to_entry doc_text_lower) unique)
  end.

(** ** [_extract_headings] *)

(** [for i in range(min(3, len(doc))): doc_text += doc[i].get_text()] *)
Fixpoint concat_text (pages : list Page) (doc_text : string) : result string :=
  match pages with
  | [] => Ok doc_text
  | p :: rest => t ← get_text p; concat_text rest (doc_text ++ t)
  end.

(** [for page_num in range(len(doc)): all_headings.extend(...)] *)
Fixpoint page_loop (pages : list Page) (page_num : nat)
    (doc_text_lower : string) (all_headings : list Heading)
  : result (list Heading) :=
  match pages with
  | [] => Ok all_headings
  | p :: rest =>
      page_headings ← _extract_headings_from_page p page_num doc_text_lower;
      page_loop rest (S page_num) doc_text_lower (all_headings ++ page_headings)
  end.

Definition is_form_document (doc_text_lower : string) : bool :=
  PyStr.contains "application form" doc_text_lower
  || PyStr.contains "government servant" doc_text_lower.

Definition doc_text_lower_of (doc : Document) : result string :=
  doc_text ← concat_text
    (firstn (Nat.min 3 (length (doc_pages doc))) (doc_pages doc)) "";
  Ok (PyStr.lower doc_text).

Definition _extract_headings (doc : Document) : result (list Entry) :=
  doc_text_lower ← doc_text_lower_of doc;
  if is_form_document doc_text_lower then Ok []
  else
    all_headings ← page_loop (doc_pages doc) 0 doc_text_lower [];
    Ok (_filter_headings all_headings doc_text_lower).

(** ** [extract_outline] *)

Record Outline : Type := {
  title : string;
  outline : list Entry
}.

(** The part of the environment [extract_outline] acts on: the names of
    the document handles that are open, the lines printed so far, and
    what writing a line to standard output raises, if anything (an
    encoding without one of its characters, a closed stream). *)
Record World : Type := {
  open_docs : list string;
  console : list string;
  stdout_error : string -> option exn
}.

(** The files on disk: what [fitz.open] finds under a path. *)
Definition Files : Type := string -> result (list Page).

Definition M (A : Type) : Type := World -> result A * World.

Definition fitz_open (fs : Files) (pdf_path : string) : M Document :=
  fun w =>
    match fs pdf_path with
    | Ok pages =>
        (Ok {| doc_name := pdf_path; doc_pages := pages |},
         {| open_docs := pdf_path :: open_docs w;
            console := console w;
            stdout_error := stdout_error w |})
    | Raise e => (Raise e, w)
    end.

Fixpoint remove_first (x : string) (l : list string) : list string :=
  match l with
  | [] => []
  | y :: ys => if String.eqb x y then ys else y :: remove_first x ys
  end.

Definition doc_close (doc : Document) : M unit :=
  fun w =>
    (Ok tt, {| open_docs := remove_first (doc_name doc) (open_docs w);
               console := console w;
               stdout_error := stdout_error w |}).

(** [print(line)]: the line reaches the console unless writing it
    raises. *)
Definition print (line : string) : M unit :=
  fun w =>
    match stdout_error w line with
    | Some e => (Raise e, w)
    | None => (Ok tt, {| open_docs := open_docs w;
                         console := console w ++ [line];
                         stdout_error := stdout_error w |})
    end.

Definition lift {A} (r : result A) : M A := fun w => (r, w).

#[global] Instance M_ret : MRet M := fun A a w => (Ok a, w).

#[global] Instance M_bind : MBind M := fun A B k m w =>
  match m w with
  | (Ok a, w') => k a w'
  | (Raise e, w') => (Raise e, w')
  end.

(** [try: body except Exception as e: handler e]. What the body raises
    outside class [Exception] is not caught, and nothing catches what
    the handler raises. *)
Definition try_except {A} (body : M A) (handler : exn -> M A) : M A :=
  fun w =>
    match body w with
    | (Ok a, w') => (Ok a, w')
    | (Raise e, w') => if is_Exception e then handler e w' else (Raise e, w')
    end.

(** The body of the [try] statement. *)
Definition outline_body (fs : Files) (pdf_path : string) : M Outline :=
  doc ← fitz_open fs pdf_path;
  title ← lift (_extract_title doc);
  outline ← lift (_extract_headings doc);
  _ ← doc_close doc;
  mret {| title := title; outline := outline |}.

Definition extract_outline (fs : Files) (pdf_path : string) : M Outline :=
  try_except
    (outline_body fs pdf_path)
    (fun e =>
       _ ← print ("Error processing " ++ pdf_path ++ ": " ++ str_exn e);
       mret {| title := ""; outline := [] |}).

(** ** The vocabulary of the specification *)

(** Case-insensitive substring test against a lower-case keyword. *)
Definition icontains (keyword text : string) : bool :=
  PyStr.contains keyword (PyStr.lower text).

(** The document profiles, in the order in which the specification takes
    the first match. *)
Inductive Profile : Type :=
| FormDocument
| PathwayFlyer
| RsvpInvite
| FoundationTechnical
| RfpDigitalLibrary
| Generic.

Definition classify (doc_text_lower : string) : Profile :=
  if PyStr.contains "application form" doc_text_lower
     || PyStr.contains "government servant" doc_text_lower
  then FormDocument
  else if PyStr.contains "pathway options" doc_text_lower
          || PyStr.contains "stem pathways" doc_text_lower
  then PathwayFlyer
  else if PyStr.contains "hope to see you" doc_text_lower
          || PyStr.contains "rsvp" doc_text_lower
  then RsvpInvite
  else if PyStr.contains "foundation level" doc_text_lower
  then FoundationTechnical
  else if PyStr.contains "rfp" doc_text_lower
          || PyStr.contains "digital library" doc_text_lower
  then RfpDigitalLibrary
  else Generic.

(** The phrase a single-heading profile looks for. *)
Definition profile_phrase (p : Profile) : string :=
  match p with
  | PathwayFlyer => "pathway options"
  | RsvpInvite => "hope to see you there"
  | _ => ""
  end.

(** Leveling by keyword, as the specification words it. *)
Definition keyword_level (text : string) : Level :=
  if existsb (fun k => icontains k text)
       ["summary"; "background"; "milestones"; "approach"; "evaluation"]
  then H1
  else if existsb (fun k => icontains k text)
            ["appendix"; "terms of reference"; "membership"]
  then H2
  else H3.

(** Keeping the first occurrence of every text, in discovery order. *)
Fixpoint keep_first (earlier : list string) (hs : list Heading)
  : list Heading :=
  match hs with
  | [] => []
  | h :: rest =>
      if existsb (String.eqb (PyStr.strip (h_text h))) earlier
      then keep_first earlier rest
      else h :: keep_first (PyStr.strip (h_text h) :: earlier) rest
  end.

(** A block candidate as the specification describes it: the stripped text
    of a block together with the spans it aggregates. *)
Definition block_spans (lines : list Line) : list Span :=
  flat_map spans lines.

Definition joined_text (sp : list Span) : string :=
  fold_right (fun s rest => (span_text s ++ rest)%string) "" sp.

Definition any_bold (sp : list Span) : bool :=
  existsb (fun s => bold_flag (span_flags s)) sp.

Fixpoint max_font_size (sp : list Span) : option Q :=
  match sp with
  | [] => None
  | s :: rest =>
      match max_font_size rest with
      | None => Some (span_size s)
      | Some m => Some (if Qgt_bool (span_size s) m then span_size s else m)
      end
  end.

Fixpoint min_top (sp : list Span) : option Q :=
  match sp with
  | [] => None
  | s :: rest =>
      match min_top rest with
      | None => Some (bbox_top (span_bbox s))
      | Some m =>
          Some (if Qlt_bool (bbox_top (span_bbox s)) m
                then bbox_top (span_bbox s) else m)
      end
  end.

Definition above (o : option Q) (bound : Q) : bool :=
  match o with Some q => Qgt_bool q bound | None => false end.

Definition below (o : option Q) (bound : Q) : bool :=
  match o with Some q => Qlt_bool q bound | None => false end.

Definition candidate_score (sp : list Span) : Z :=
  ((if any_bold sp then 3 else 0)
   + (if above (max_font_size sp) 16%Q then 2
      else if above (max_font_size sp) 14%Q then 1 else 0)
   + (if below (min_top sp) 200%Q then 2 else 0))%Z.

Definition page0_candidate (b : Block) : list (string * list Span) :=
  match b with
  | ImageBlock => []
  | TextBlock lines =>
      let t := PyStr.strip (joined_text (block_spans lines)) in
      if (10 <? PyStr.len t)%nat && (PyStr.len t <? 200)%nat
      then [(t, block_spans lines)] else []
  end.

Definition page0_candidates (blocks : list Block)
  : list (string * list Span) :=
  flat_map page0_candidate blocks.

(** The candidate record the title scan builds for a block candidate. *)
Definition candidate_of (c : string * list Span) : TitleCandidate :=
  let acc := fold_left title_span c.2 title_block_init in
  {| tc_text := c.1;
     tc_size := tc_size acc;
     tc_bold := tc_bold acc;
     tc_position := tc_position acc |}.

(** The blocks of page 0; a document without pages has none. *)
Definition page0_blocks (doc : Document) : result (list Block) :=
  match doc_pages doc with
  | [] => Ok []
  | first_page :: _ => get_text_dict first_page
  end.

(** A heading candidate passed the exclusion rules and then one of the
    inclusion rules. *)
Definition accepted (dtl : string) (h : Heading) : Prop :=
  _is_obviously_not_heading (h_text h) = false
  /\ _is_likely_heading (h_text h) (h_size h) (h_bold h) dtl = true.

Definition page_le (a b : Entry) : Prop := (page a <= page b)%nat.

Definition on_page (p : nat) (e : Entry) : bool := (page e =? p)%nat.

Definition empty_record : Outline := {| title := ""; outline := [] |}.

(** ** Sample documents *)

Definition mk_span (t : string) (sz : Q) (bold : bool) (y : Q) : Span :=
  {| span_text := t; span_size := sz;
     span_flags := if bold then 16%Z else 0%Z;
     span_bbox := (72%Q, y, 500%Q, (y + sz)%Q) |}.

Definition one_block (t : string) (sz : Q) (bold : bool) (y : Q) : Block :=
  TextBlock [ {| spans := [mk_span t sz bold y] |} ].

Definition mk_page (plain : string) (bs : list Block) : Page :=
  {| get_text_dict := Ok bs; get_text := Ok plain |}.

(** No handle open, nothing printed, a standard output that takes every
    line. *)
Definition w0 : World :=
  {| open_docs := []; console := []; stdout_error := fun _ => None |}.

(** A project charter whose only block reads "1.2 Scope". *)
Definition scope_lines : list Line :=
  [ {| spans := [mk_span "1.2 Scope" 18 true 80] |} ].

Definition scope_pages : list Page :=
  [ mk_page "Project charter 1.2 Scope" [TextBlock scope_lines] ].

(** A request for proposals over two pages. *)
Definition rfp_pages : list Page :=
  [ mk_page "Request for Proposal (RFP) for the library"
      [ one_block "  Executive Summary " 18 true 50;
        one_block "Web Services Overview" 18 true 90;
        ImageBlock;
        TextBlock [ {| spans := [ mk_span "Project " 12 false 300;
                                  mk_span "Timeline" 17 false 300 ] |} ];
        one_block "Executive Summary" 12 false 400;
        one_block "Appendix A" 18 false 500 ];
    mk_page "Background"
      [ one_block "Background of the programme" 12 false 60;
        one_block "Project Timeline" 18 true 120 ] ].

(** A document that opens, but whose first page cannot be read. *)
Definition broken_pages : list Page :=
  [ {| get_text_dict := Raise (Exception "cannot load page");
       get_text := Ok "cover" |} ].

(** A flyer: the phrase appears on the second page. *)
Definition flyer_pages : list Page :=
  [ mk_page "Parsippany STEM Pathways"
      [ one_block "WELCOME EVERYONE" 12 false 40 ];
    mk_page "more"
      [ one_block "Pathway Options" 20 true 40;
        one_block "REGULAR PATHWAY" 12 false 90 ] ].

(** An application form with a large bold caption. *)
Definition form_pages : list Page :=
  [ mk_page "Application form for grant of LTC advance"
      [ one_block "Application form for grant of LTC advance" 18 true 60;
        one_block "PERSONAL DETAILS" 18 true 120 ] ].

Definition sample_files : Files := fun pdf_path =>
  if String.eqb pdf_path "scope.pdf" then Ok scope_pages
  else if String.eqb pdf_path "rfp.pdf" then Ok rfp_pages
  else if String.eqb pdf_path "broken.pdf" then Ok broken_pages
  else if String.eqb pdf_path "flyer.pdf" then Ok flyer_pages
  else if String.eqb pdf_path "form.pdf" then Ok form_pages
  else Raise (Exception "no such file").

(** The blocks of the first page of [rfp_pages]. *)
Definition rfp_blocks : list Block :=
  [ one_block "  Executive Summary " 18 true 50;
    one_block "Web Services Overview" 18 true 90;
    ImageBlock;
    TextBlock [ {| spans := [ mk_span "Project " 12 false 300;
                              mk_span "Timeline" 17 false 300 ] |} ];
    one_block "Executive Summary" 12 false 400;
    one_block "Appendix A" 18 false 500 ].

Definition rfp_doc : Document :=
  {| doc_name := "rfp.pdf"; doc_pages := rfp_pages |}.

Definition rfp_text_lower : string :=
  "request for proposal (rfp) for the librarybackground".

(** The candidates the page loop collects from [rfp_pages]. *)
Definition rfp_headings : list Heading :=
  [ {| h_text := "Executive Summary"; h_size := 18; h_bold := true;
       h_page := 0 |};
    {| h_text := "Project Timeline"; h_size := 17; h_bold := false;
       h_page := 0 |};
    {| h_text := "Executive Summary"; h_size := 12; h_bold := false;
       h_page := 0 |};
    {| h_text := "Appendix A"; h_size := 18; h_bold := false; h_page := 0 |};
    {| h_text := "Background of the programme"; h_size := 12;
       h_bold := false; h_page := 1 |};
    {| h_text := "Project Timeline"; h_size := 18; h_bold := true;
       h_page := 1 |} ].

Definition flyer_doc : Document :=
  {| doc_name := "flyer.pdf"; doc_pages := flyer_pages |}.

Definition flyer_text_lower : string := "parsippany stem pathwaysmore".

Definition flyer_headings : list Heading :=
  [ {| h_text := "WELCOME EVERYONE"; h_size := 12; h_bold := false;
       h_page := 0 |};
    {| h_text := "Pathway Options"; h_size := 20; h_bold := true;
       h_page := 1 |};
    {| h_text := "REGULAR PATHWAY"; h_size := 12; h_bold := false;
       h_page := 1 |} ].

(** ** Vocabulary for the remaining properties *)

(** The states in which a run of characters of class [p] can stop, the
    longest run first. *)
Fixpoint run_states (p : ascii -> bool) (n : nat) (s : string)
  : list Re.st :=
  match s with
  | String c s' => if p c then run_states p (S n) s' ++ [(n, s)] else [(n, s)]
  | EmptyString => [(n, s)]
  end.

(** A matcher state after [lower()] of the text left. *)
Definition lower_state (x : Re.st) : Re.st := (x.1, PyStr.lower x.2).

(** [lowers r r']: [r'] accepts the lower-cased form of every character
    [r] accepts, position by position. *)
Inductive lowers : Re.re -> Re.re -> Prop :=
| lowers_Bol : lowers Re.Bol Re.Bol
| lowers_Eol : lowers Re.Eol Re.Eol
| lowers_Cls p q :
    (forall c, p c = true -> q (PyStr.lower_char c) = true) ->
    lowers (Re.Cls p) (Re.Cls q)
| lowers_Seq a a' b b' :
    lowers a a' -> lowers b b' -> lowers (Re.Seq a b) (Re.Seq a' b')
| lowers_Opt a a' : lowers a a' -> lowers (Re.Opt a) (Re.Opt a')
| lowers_Star a a' : lowers a a' -> lowers (Re.Star a) (Re.Star a')
| lowers_Plus a a' : lowers a a' -> lowers (Re.Plus a) (Re.Plus a').

(** [within r r']: wherever [r] can stop, [r'] can stop too. *)
Definition within (r r' : Re.re) : Prop :=
  forall x z, In z (Re.ends r x) -> In z (Re.ends r' x).

(** The heading record [_extract_headings_from_page] builds for a block. *)
Definition heading_of (page_num : nat) (lines : list Line) : Heading :=
  let acc := heading_scan lines in
  {| h_text := PyStr.strip (acc_text acc);
     h_size := acc_size acc;
     h_bold := acc_bold acc;
     h_page := page_num |}.

(** The three tests a block passes to become a heading candidate. *)
Definition eligible (doc_text_lower : string) (lines : list Line) : bool :=
  let acc := heading_scan lines in
  let block_text := PyStr.strip (acc_text acc) in
  negb (String.eqb block_text "" || (PyStr.len block_text <? 3)%nat
        || (200 <? PyStr.len block_text)%nat)
  && negb (_is_obviously_not_heading block_text)
  && _is_likely_heading block_text (acc_size acc) (acc_bold acc)
                        doc_text_lower.

(** The line [extract_outline] prints for an error. *)
Definition error_line (pdf_path : string) (e : exn) : string :=
  "Error processing " ++ pdf_path ++ ": " ++ str_exn e.

(** A directory in which every file is a document without pages. *)
Definition blank_files : Files := fun _ => Ok [].

Definition hpage_le (a b : Heading) : Prop := (h_page a <= h_page b)%nat.

(** The inclusion rules that do not look at the document text: capitals,
    bold above 14, any font above 16. *)
Definition stands_out (lines : list Line) : bool :=
  let acc := heading_scan lines in
  let block_text := PyStr.strip (acc_text acc) in
  (PyStr.isupper block_text && (5 <? PyStr.len block_text)%nat)
  || (acc_bold acc && Qgt_bool (acc_size acc) 14%Q)
  || Qgt_bool (acc_size acc) 16%Q.

(** A document of no known profile with a heading of each level. *)
Definition plain_pages : list Page :=
  [ mk_page "Minutes of the annual meeting"
      [ one_block "Welcome address" 20 false 40;
        one_block "Overview" 15 true 90;
        one_block "ANNUAL REPORT" 12 false 140;
        one_block "The committee met in March." 11 false 200 ] ].

Definition plain_doc : Document :=
  {| doc_name := "plain.pdf"; doc_pages := plain_pages |}.

Definition plain_text_lower : string := "minutes of the annual meeting".

Definition plain_headings : list Heading :=
  [ {| h_text := "Welcome address"; h_size := 20; h_bold := false;
       h_page := 0 |};
    {| h_text := "Overview"; h_size := 15; h_bold := true; h_page := 0 |};
    {| h_text := "ANNUAL REPORT"; h_size := 12; h_bold := false;
       h_page := 0 |} ].

(** Four pages, and the same four pages when the plain text of the
    fourth cannot be read. *)
Definition long_pages (fourth : result string) : list Page :=
  [ mk_page "Cover" [ one_block "Welcome address" 20 false 40 ];
    mk_page "Contents" [];
    mk_page "Body" [ one_block "Overview" 15 true 90 ];
    {| get_text_dict := Ok [ one_block "CLOSING REMARKS" 12 false 40 ];
       get_text := fourth |} ].

Definition long_files (fourth : result string) : Files :=
  fun _ => Ok (long_pages fourth).

(** An application form whose second page is damaged. *)
Definition form_first_page : Page :=
  mk_page "Application form for grant of LTC advance"
    [ one_block "Application form for grant of LTC advance" 18 true 60;
      one_block "PERSONAL DETAILS" 18 true 120 ].

Definition damaged_form_files : Files := fun _ =>
  Ok [ form_first_page;
       {| get_text_dict := Raise (Exception "cannot load page");
          get_text := Ok "annex" |} ].

(** [e] is raised while the document under [pdf_path] is opened or
    processed: by [fitz.open], by the title extraction, or by the heading
    extraction after a title was found. *)
Definition processing_raises (pdf_path : string) (pages : list Page)
    (e : exn) : Prop :=
  _extract_title {| doc_name := pdf_path; doc_pages := pages |} = Raise e
  \/ (exists t,
        _extract_title {| doc_name := pdf_path; doc_pages := pages |} = Ok t)
     /\ _extract_headings {| doc_name := pdf_path; doc_pages := pages |}
        = Raise e.

Definition raises_in_body (fs : Files) (pdf_path : string) (e : exn) : Prop :=
  fs pdf_path = Raise e
  \/ exists pages,
       fs pdf_path = Ok pages /\ processing_raises pdf_path pages e.

(** The world once the handle of [pdf_path] is open, and once a line is
    printed. *)
Definition opened (pdf_path : string) (w : World) : World :=
  {| open_docs := pdf_path :: open_docs w;
     console := console w;
     stdout_error := stdout_error w |}.

Definition printed (line : string) (w : World) : World :=
  {| open_docs := open_docs w;
     console := console w ++ [line];
     stdout_error := stdout_error w |}.

(** A standard output whose encoding is ASCII. *)
Definition is_ascii (c : ascii) : bool := (nat_of_ascii c <? 128)%nat.

Definition ascii_stdout : World :=
  {| open_docs := [];
     console := [];
     stdout_error := fun line =>
       if forallb is_ascii (list_ascii_of_string line) then None
       else Some (Exception "'ascii' codec can't encode character") |}.

(** A path whose first character is U+00E9. *)
Definition accented_path : string := String (ascii_of_nat 233) "tude.pdf".

(** A document during whose first page the user interrupts the run. *)
Definition interrupted_pages : list Page :=
  [ {| get_text_dict := Raise (BaseException "KeyboardInterrupt");
       get_text := Ok "cover" |} ].

Definition interrupted_files : Files := fun _ => Ok interrupted_pages.

(** * Properties *)

(** ** Lists built by appending in a loop *)

Section AppendLoops.
Context {A B : Type}.
Variable step : list B -> A -> list B.
Variable emit : A -> list B.
Hypothesis step_emit : forall acc a, step acc a = acc ++ emit a.

Lemma fold_left_emit (l : list A) (acc : list B) :
  fold_left step l acc = acc ++ flat_map emit l.
Proof.
  revert acc. induction l as [|a l IH]; intros acc; simpl.
  - now rewrite app_nil_r.
  - rewrite IH, step_emit, <- app_assoc. reflexivity.
Qed.
End AppendLoops.

(** ** The stable sort by page *)

Section SortByPage.

Lemma insert_by_page_perm e l : Permutation (insert_by_page e l) (e :: l).
Proof.
  induction l as [|x xs IH]; simpl; [reflexivity|].
  destruct (page e <=? page x)%nat; [reflexivity|].
  rewrite IH. apply perm_swap.
Qed.

Lemma sort_by_page_perm l : Permutation (sort_by_page l) l.
Proof.
  induction l as [|e l IH]; simpl; [constructor|].
  rewrite insert_by_page_perm. now constructor.
Qed.

Lemma insert_by_page_sorted e l :
  StronglySorted page_le l -> StronglySorted page_le (insert_by_page e l).
Proof.
  induction 1 as [|x xs Hs IH Hall]; simpl.
  - repeat constructor.
  - destruct (page e <=? page x)%nat eqn:E.
    + apply Nat.leb_le in E. constructor.
      * now constructor.
      * constructor; [exact E|].
        eapply Forall_impl; [exact Hall|].
        unfold page_le. intros; lia.
    + apply Nat.leb_gt in E. constructor; [exact IH|].
      eapply Permutation_Forall.
      * symmetry. apply insert_by_page_perm.
      * constructor; [unfold page_le; lia | exact Hall].
Qed.

Lemma sort_by_page_sorted l : StronglySorted page_le (sort_by_page l).
Proof.
  induction l as [|e l IH]; simpl; [constructor|].
  now apply insert_by_page_sorted.
Qed.

Lemma insert_by_page_other p e l :
  on_page p e = false ->
  List.filter (on_page p) (insert_by_page e l) = List.filter (on_page p) l.
Proof.
  intros He. induction l as [|x xs IH]; simpl.
  - now rewrite He.
  - destruct (page e <=? page x)%nat; simpl.
    + now rewrite He.
    + now rewrite IH.
Qed.

Lemma insert_by_page_same p e l :
  on_page p e = true -> StronglySorted page_le l ->
  List.filter (on_page p) (insert_by_page e l)
  = e :: List.filter (on_page p) l.
Proof.
  intros He. induction 1 as [|x xs Hs IH Hall]; simpl.
  - now rewrite He.
  - destruct (page e <=? page x)%nat eqn:E; simpl.
    + now rewrite He.
    + rewrite IH. unfold on_page in *.
      apply Nat.eqb_eq in He. apply Nat.leb_gt in E.
      destruct (page x =? p)%nat eqn:Ex; [|reflexivity].
      apply Nat.eqb_eq in Ex. lia.
Qed.

Lemma sort_by_page_stable p l :
  List.filter (on_page p) (sort_by_page l) = List.filter (on_page p) l.
Proof.
  induction l as [|e l IH]; simpl; [reflexivity|].
  destruct (on_page p e) eqn:He.
  - rewrite insert_by_page_same by auto using sort_by_page_sorted.
    now rewrite IH.
  - rewrite insert_by_page_other by assumption. exact IH.
Qed.

End SortByPage.

(** ** Deduplication *)

Section Dedup.

Lemma existsb_eqb_In (t : string) (l : list string) :
  existsb (String.eqb t) l = true <-> In t l.
Proof.
  rewrite existsb_exists. split.
  - intros (x & Hx & E). apply String.eqb_eq in E. now subst.
  - intros H. exists t. split; [exact H | apply String.eqb_refl].
Qed.

(** The loop with its [seen] set computes [keep_first]. *)
Lemma dedup_loop_keep_first (hs : list Heading) :
  forall (seen : gset string) (uniq : list Heading) (earlier : list string),
    (forall t, t ∈ seen <-> In t earlier) ->
    (fold_left dedup_step hs (seen, uniq)).2
    = uniq ++ keep_first earlier hs.
Proof.
  induction hs as [|h hs IH]; intros seen uniq earlier Hseen; simpl.
  - now rewrite app_nil_r.
  - unfold dedup_step at 2. simpl.
    destruct (decide (PyStr.strip (h_text h) ∈ seen)) as [Hin|Hout].
    + apply Hseen, existsb_eqb_In in Hin. rewrite Hin.
      now apply IH.
    + destruct (existsb (String.eqb (PyStr.strip (h_text h))) earlier) eqn:E.
      * apply existsb_eqb_In, Hseen in E. contradiction.
      * rewrite (IH _ _ (PyStr.strip (h_text h) :: earlier)).
        -- now rewrite <- app_assoc.
        -- intros t. rewrite elem_of_union, elem_of_singleton, Hseen.
           simpl. intuition congruence.
Qed.

Lemma unique_headings_keep_first (hs : list Heading) :
  unique_headings hs = keep_first [] hs.
Proof.
  unfold unique_headings.
  rewrite (dedup_loop_keep_first hs ∅ [] []); [reflexivity|].
  intros t. rewrite elem_of_empty. simpl. tauto.
Qed.

Lemma keep_first_In earlier hs h :
  In h (keep_first earlier hs) ->
  In h hs /\ ~ In (PyStr.strip (h_text h)) earlier.
Proof.
  revert earlier. induction hs as [|x hs IH]; intros earlier; simpl.
  - tauto.
  - destruct (existsb (String.eqb (PyStr.strip (h_text x))) earlier) eqn:E.
    + intros H. apply IH in H. tauto.
    + intros [<-|H].
      * split; [now left|].
        intros Hin. apply existsb_eqb_In in Hin. congruence.
      * apply IH in H. simpl in H. tauto.
Qed.

Lemma keep_first_NoDup earlier hs :
  List.NoDup (map (fun h => PyStr.strip (h_text h)) (keep_first earlier hs)).
Proof.
  revert earlier. induction hs as [|x hs IH]; intros earlier; simpl.
  - constructor.
  - destruct (existsb (String.eqb (PyStr.strip (h_text x))) earlier).
    + apply IH.
    + simpl. constructor; [|apply IH].
      intros Hin. apply in_map_iff in Hin as (h & Eh & Hh).
      apply keep_first_In in Hh as [_ Hh]. apply Hh. rewrite Eh. now left.
Qed.

(** No candidate text is lost: it is kept, or it was seen earlier. *)
Lemma keep_first_complete earlier hs h :
  In h hs ->
  In (PyStr.strip (h_text h)) earlier
  \/ In (PyStr.strip (h_text h))
        (map (fun k => PyStr.strip (h_text k)) (keep_first earlier hs)).
Proof.
  revert earlier. induction hs as [|x hs IH]; intros earlier; simpl.
  - tauto.
  - intros [->|Hin].
    + destruct (existsb (String.eqb (PyStr.strip (h_text h))) earlier) eqn:E.
      * left. now apply existsb_eqb_In.
      * right. now left.
    + destruct (existsb (String.eqb (PyStr.strip (h_text x))) earlier) eqn:E.
      * now apply IH.
      * destruct (IH (PyStr.strip (h_text x) :: earlier) Hin) as [[<-|H]|H].
        -- right. now left.
        -- now left.
        -- right. now right.
Qed.

Lemma NoDup_map_compose {A B C} (f : B -> C) (g : A -> B) (l : list A) :
  List.NoDup (map (fun x => f (g x)) l) -> List.NoDup (map g l).
Proof.
  induction l as [|x l IH]; simpl; intros H; [constructor|].
  inversion H as [|? ? Hx Hl]; subst. constructor; [|now apply IH].
  intros Hin. apply Hx. apply in_map_iff in Hin as (y & Ey & Hy).
  apply in_map_iff. exists y. split; [now rewrite Ey | exact Hy].
Qed.

Lemma unique_headings_NoDup hs : List.NoDup (map h_text (unique_headings hs)).
Proof.
  rewrite unique_headings_keep_first.
  apply (NoDup_map_compose PyStr.strip h_text), keep_first_NoDup.
Qed.

Lemma unique_headings_In hs h : In h (unique_headings hs) -> In h hs.
Proof.
  rewrite unique_headings_keep_first. intros H.
  now apply keep_first_In in H.
Qed.

End Dedup.

(** ** What [_filter_headings] returns *)

Section Filter.

Lemma single_heading_cases keyword unique :
  single_heading keyword unique = []
  /\ Forall (fun h => icontains keyword (h_text h) = false) unique
  \/ exists h,
      In h unique /\ icontains keyword (h_text h) = true
      /\ single_heading keyword unique
         = [ {| level := H1; text := h_text h; page := 0 |} ].
Proof.
  induction unique as [|x xs IH]; simpl.
  - left. split; [reflexivity | constructor].
  - destruct (PyStr.contains keyword (PyStr.lower (h_text x))) eqn:E.
    + right. exists x. auto.
    + destruct IH as [[E0 Hall]|(h & Hin & Hk & Eh)].
      * left. split; [exact E0 | now constructor].
      * right. exists h. auto.
Qed.

Lemma map_text_to_entry dtl hs :
  map text (map (to_entry dtl) hs) = map h_text hs.
Proof. rewrite map_map. reflexivity. Qed.

(** Every entry carries the text of one of the candidates. *)
Lemma filter_headings_text hs dtl e :
  In e (_filter_headings hs dtl) -> exists h, In h hs /\ text e = h_text h.
Proof.
  unfold _filter_headings. destruct hs as [|h0 hs0]; [simpl; tauto|].
  set (hs := h0 :: hs0).
  destruct (_ || _).
  - destruct (single_heading_cases "pathway options" (unique_headings hs))
      as [[-> _]|(h & Hin & _ & ->)]; [intros []|].
    intros [<-|[]]. exists h. split; [now apply unique_headings_In | reflexivity].
  - destruct (_ || _).
    + destruct (single_heading_cases "hope to see you there"
                  (unique_headings hs))
        as [[-> _]|(h & Hin & _ & ->)]; [intros []|].
      intros [<-|[]]. exists h.
      split; [now apply unique_headings_In | reflexivity].
    + intros Hin.
      apply (Permutation_in _ (sort_by_page_perm _)) in Hin.
      apply in_map_iff in Hin as (h & <- & Hh).
      exists h. split; [now apply unique_headings_In | reflexivity].
Qed.

Lemma filter_headings_NoDup hs dtl :
  List.NoDup (map text (_filter_headings hs dtl)).
Proof.
  unfold _filter_headings. destruct hs as [|h0 hs0]; [constructor|].
  set (hs := h0 :: hs0).
  destruct (_ || _).
  - destruct (single_heading_cases "pathway options" (unique_headings hs))
      as [[-> _]|(h & _ & _ & ->)]; simpl; repeat constructor; simpl; tauto.
  - destruct (_ || _).
    + destruct (single_heading_cases "hope to see you there"
                  (unique_headings hs))
        as [[-> _]|(h & _ & _ & ->)]; simpl; repeat constructor; simpl; tauto.
    + eapply Permutation_NoDup.
      * symmetry. apply Permutation_map, sort_by_page_perm.
      * rewrite map_text_to_entry. apply unique_headings_NoDup.
Qed.

Lemma filter_headings_sorted hs dtl :
  StronglySorted page_le (_filter_headings hs dtl).
Proof.
  unfold _filter_headings. destruct hs as [|h0 hs0]; [constructor|].
  set (hs := h0 :: hs0).
  destruct (_ || _).
  - destruct (single_heading_cases "pathway options" (unique_headings hs))
      as [[-> _]|(h & _ & _ & ->)]; repeat constructor.
  - destruct (_ || _).
    + destruct (single_heading_cases "hope to see you there"
                  (unique_headings hs))
        as [[-> _]|(h & _ & _ & ->)]; repeat constructor.
    + apply sort_by_page_sorted.
Qed.

End Filter.

(** ** What the page loop collects *)

Section Candidates.

Lemma heading_block_emit pn dtl hs b :
  heading_block pn dtl hs b = hs ++ heading_block pn dtl [] b.
Proof.
  destruct b as [lines|]; simpl; [|now rewrite app_nil_r].
  repeat match goal with
         | |- context [if ?c then _ else _] => destruct c
         end; now rewrite ?app_nil_r.
Qed.

Lemma heading_block_accepted pn dtl b h :
  In h (heading_block pn dtl [] b) -> accepted dtl h.
Proof.
  destruct b as [lines|]; simpl; [|tauto].
  destruct (_ || _); [intros []|].
  destruct (_is_obviously_not_heading _) eqn:Ex; [intros []|].
  destruct (_is_likely_heading _ _ _ _) eqn:Ei; [|intros []].
  intros [<-|[]]. split; assumption.
Qed.

Lemma page_headings_accepted page pn dtl hs :
  _extract_headings_from_page page pn dtl = Ok hs ->
  Forall (accepted dtl) hs.
Proof.
  unfold _extract_headings_from_page.
  destruct (get_text_dict page) as [blocks|e]; simpl; [|discriminate].
  intros [= <-].
  rewrite (fold_left_emit _ _ (heading_block_emit pn dtl)). simpl.
  apply List.Forall_forall. intros h Hin.
  apply in_flat_map in Hin as (b & _ & Hb).
  now apply heading_block_accepted in Hb.
Qed.

Lemma page_loop_accepted pages :
  forall pn dtl acc res,
    page_loop pages pn dtl acc = Ok res ->
    Forall (accepted dtl) acc -> Forall (accepted dtl) res.
Proof.
  induction pages as [|p pages IH]; intros pn dtl acc res; simpl.
  - now intros [= <-].
  - destruct (_extract_headings_from_page p pn dtl) as [hs|e] eqn:E;
      simpl; [|discriminate].
    intros Hloop Hacc. eapply IH; [exact Hloop|].
    apply Forall_app. split; [exact Hacc|].
    now apply page_headings_accepted in E.
Qed.

End Candidates.

(** ** Unfolding the two entry points *)

Section EntryPoints.

Lemma extract_headings_cases doc o :
  _extract_headings doc = Ok o ->
  exists dtl,
    doc_text_lower_of doc = Ok dtl
    /\ (is_form_document dtl = true /\ o = []
        \/ is_form_document dtl = false
           /\ exists hs, page_loop (doc_pages doc) 0 dtl [] = Ok hs
                         /\ o = _filter_headings hs dtl).
Proof.
  unfold _extract_headings.
  destruct (doc_text_lower_of doc) as [dtl|e]; simpl; [|discriminate].
  intros H. exists dtl. split; [reflexivity|].
  destruct (is_form_document dtl); [left; now inversion H|right].
  split; [reflexivity|].
  destruct (page_loop _ _ _ _) as [hs|e]; simpl in H; [|discriminate].
  exists hs. split; [reflexivity | now inversion H].
Qed.

(** A record [extract_outline] returns is the one the [try] body built,
    or the empty one of the [except] clause. *)
Lemma extract_outline_cases fs pdf_path w r w' :
  extract_outline fs pdf_path w = (Ok r, w') ->
  outline_body fs pdf_path w = (Ok r, w')
  \/ r = empty_record
     /\ exists e w1, outline_body fs pdf_path w = (Raise e, w1).
Proof.
  unfold extract_outline, try_except.
  destruct (outline_body fs pdf_path w) as [[r0|e] w1].
  - intros H. now left.
  - destruct (is_Exception e); [|discriminate].
    unfold print, mbind, M_bind, mret, M_ret.
    destruct (stdout_error w1 _); [discriminate|].
    intros [= <- <-]. right. split; [reflexivity | eauto].
Qed.

Lemma outline_body_ok fs pdf_path w r w' :
  outline_body fs pdf_path w = (Ok r, w') ->
  exists pages,
    fs pdf_path = Ok pages
    /\ _extract_title {| doc_name := pdf_path; doc_pages := pages |}
       = Ok (title r)
    /\ _extract_headings {| doc_name := pdf_path; doc_pages := pages |}
       = Ok (outline r)
    /\ open_docs w' = remove_first pdf_path (pdf_path :: open_docs w).
Proof.
  unfold outline_body, fitz_open, lift, doc_close, mbind, M_bind, mret, M_ret.
  destruct (fs pdf_path) as [pages|e] eqn:Efs; [|discriminate].
  destruct (_extract_title _) as [t|e] eqn:Et; [|discriminate].
  destruct (_extract_headings _) as [o|e] eqn:Eh; [|discriminate].
  intros [= <- <-]. exists pages.
  repeat split; solve [assumption | reflexivity].
Qed.

(** The outline of a returned record is empty or the result of
    [_extract_headings] on the opened document. *)
Lemma extract_outline_outline fs pdf_path w r w' :
  extract_outline fs pdf_path w = (Ok r, w') ->
  outline r = []
  \/ exists pages,
      fs pdf_path = Ok pages
      /\ _extract_headings {| doc_name := pdf_path; doc_pages := pages |}
         = Ok (outline r).
Proof.
  intros H.
  apply extract_outline_cases in H as [Hb|[-> _]].
  - right. apply outline_body_ok in Hb as (pages & ? & _ & ? & _). eauto.
  - left. reflexivity.
Qed.

(** Every entry of a returned outline is the text of an accepted
    candidate. *)
Lemma extract_headings_from_accepted doc o e :
  _extract_headings doc = Ok o -> In e o ->
  exists dtl h, accepted dtl h /\ text e = h_text h.
Proof.
  intros H Hin.
  apply extract_headings_cases in H
    as (dtl & _ & [[_ ->]|(_ & hs & Hloop & ->)]); [destruct Hin|].
  apply filter_headings_text in Hin as (h & Hh & Et).
  exists dtl, h. split; [|exact Et].
  apply page_loop_accepted in Hloop; [|constructor].
  rewrite List.Forall_forall in Hloop. now apply Hloop.
Qed.

Lemma extract_outline_from_accepted fs pdf_path w r w' e :
  extract_outline fs pdf_path w = (Ok r, w') -> In e (outline r) ->
  exists dtl h, accepted dtl h /\ text e = h_text h.
Proof.
  intros H Hin.
  apply extract_outline_outline in H as [E|(pages & _ & H)].
  - rewrite E in Hin. destruct Hin.
  - eapply extract_headings_from_accepted; eauto.
Qed.

End EntryPoints.

(** ** The exclusion rules come first *)

Section Exclusion.

Lemma form_label_excluded t :
  existsb (fun pattern => PyStr.contains pattern (PyStr.lower t))
          form_patterns = true ->
  _is_obviously_not_heading t = true.
Proof.
  intros H. unfold _is_obviously_not_heading. rewrite H.
  destruct (_ || _); [reflexivity|].
  destruct (existsb _ garbage_patterns); reflexivity.
Qed.

Lemma kept_has_no_form_label t pattern :
  _is_obviously_not_heading t = false -> In pattern form_patterns ->
  icontains pattern t = false.
Proof.
  intros Hkeep Hin. unfold icontains.
  destruct (PyStr.contains pattern (PyStr.lower t)) eqn:E; [|reflexivity].
  rewrite form_label_excluded in Hkeep; [discriminate|].
  apply existsb_exists. eauto.
Qed.

(** A block the exclusion rules reject leaves the list of headings as it
    was, whatever the inclusion rules would say. *)
Lemma excluded_block_skipped pn dtl hs lines :
  _is_obviously_not_heading (PyStr.strip (acc_text (heading_scan lines)))
  = true ->
  heading_block pn dtl hs (TextBlock lines) = hs.
Proof.
  intros H. simpl. rewrite H. now destruct (_ || _).
Qed.

End Exclusion.

(** ** The claims *)

(** C1 (as the code has it): a block whose stripped text is "1.2 Scope"
    matches the numbered-heading pattern of inclusion rule 1, but the
    exclusion rules run first and their decimal sub-item pattern rejects
    it: the block adds no heading candidate, and no outline entry of any
    document has the text "1.2 Scope". *)
Theorem C1_scope_is_excluded
    (fs : Files) (pdf_path : string) (w w' : World) (r : Outline) (e : Entry)
    (pn : nat) (dtl : string) (hs : list Heading) (lines : list Line) :
  PyStr.strip (acc_text (heading_scan lines)) = "1.2 Scope" ->
  extract_outline fs pdf_path w = (Ok r, w') ->
  In e (outline r) ->
  Re.matches Re.numbered_heading "1.2 Scope" = true
  /\ Re.matches Re.sub_item "1.2 Scope" = true
  /\ heading_block pn dtl hs (TextBlock lines) = hs
  /\ text e <> "1.2 Scope".
Proof.
  intros Htext Hrun Hin.
  assert (Hex : _is_obviously_not_heading "1.2 Scope" = true)
    by (vm_compute; reflexivity).
  repeat split; try (vm_compute; reflexivity).
  - apply excluded_block_skipped. now rewrite Htext.
  - intros Et.
    destruct (extract_outline_from_accepted _ _ _ _ _ _ Hrun Hin)
      as (dtl' & h & [Hkeep _] & Eh).
    rewrite <- Eh, Et in Hkeep. congruence.
Qed.

Lemma C1_scope_is_excluded_witness :
  Re.matches Re.numbered_heading "1.2 Scope" = true
  /\ Re.matches Re.sub_item "1.2 Scope" = true
  /\ heading_block 0 "" [] (TextBlock scope_lines) = []
  /\ text {| level := H1; text := "Executive Summary"; page := 0 |}
     <> "1.2 Scope".
Proof.
  apply (C1_scope_is_excluded sample_files "rfp.pdf" w0 w0
           {| title := "Executive Summary";
              outline :=
                [ {| level := H1; text := "Executive Summary"; page := 0 |};
                  {| level := H3; text := "Project Timeline"; page := 0 |};
                  {| level := H2; text := "Appendix A"; page := 0 |};
                  {| level := H1; text := "Background of the programme";
                     page := 1 |} ] |}).
  - vm_compute; reflexivity.
  - vm_compute; reflexivity.
  - simpl; left; reflexivity.
Defined.

(** C1, refuted as stated: in a document that is no form, flyer or invite,
    a bold 18-point block "1.2 Scope" matches inclusion rule 1 and still
    yields neither a heading candidate nor an outline entry. *)
Lemma C1_scope_counterexample :
  PyStr.strip (acc_text (heading_scan scope_lines)) = "1.2 Scope"
  /\ Re.matches Re.numbered_heading "1.2 Scope" = true
  /\ classify (PyStr.lower "Project charter 1.2 Scope") = Generic
  /\ heading_block 0 (PyStr.lower "Project charter 1.2 Scope") []
       (TextBlock scope_lines) = []
  /\ extract_outline sample_files "scope.pdf" w0
     = (Ok {| title := ""; outline := [] |}, w0).
Proof. vm_compute. repeat split; reflexivity. Qed.

(** C2: when the lower-cased text of the first [min(3, pageCount)] pages
    contains "application form" or "government servant", heading
    extraction returns the empty outline without reading any page
    dictionary; every record [extract_outline] returns has an empty
    outline, whatever the title, and when the title can be extracted
    the record is returned with that title and the empty outline. *)
Theorem C2_form_document_has_empty_outline
    (fs : Files) (pdf_path : string) (w : World) (pages : list Page)
    (doc_text : string) :
  fs pdf_path = Ok pages ->
  concat_text (firstn (Nat.min 3 (length pages)) pages) "" = Ok doc_text ->
  PyStr.contains "application form" (PyStr.lower doc_text)
  || PyStr.contains "government servant" (PyStr.lower doc_text) = true ->
  _extract_headings {| doc_name := pdf_path; doc_pages := pages |} = Ok []
  /\ (forall r w', extract_outline fs pdf_path w = (Ok r, w') ->
                   outline r = [])
  /\ (forall t,
        _extract_title {| doc_name := pdf_path; doc_pages := pages |} = Ok t ->
        extract_outline fs pdf_path w
        = (Ok {| title := t; outline := [] |}, w)).
Proof.
  intros Hfs Htext Hform.
  assert (Hh : _extract_headings {| doc_name := pdf_path; doc_pages := pages |}
               = Ok []).
  { unfold _extract_headings, doc_text_lower_of. cbn [doc_pages].
    rewrite Htext. cbn [mbind result_bind].
    unfold is_form_document. now rewrite Hform. }
  split; [exact Hh|]. split.
  - intros r w' Hrun.
    apply extract_outline_cases in Hrun as [Hb|[-> _]]; [|reflexivity].
    apply outline_body_ok in Hb as (pages' & Hfs' & _ & Hh' & _).
    rewrite Hfs in Hfs'. inversion Hfs'; subst pages'.
    rewrite Hh in Hh'. now inversion Hh'.
  - intros t Ht.
    unfold extract_outline, try_except, outline_body, fitz_open, lift,
      doc_close, mbind, M_bind, mret, M_ret.
    rewrite Hfs, Ht, Hh.
    cbn [doc_name open_docs console stdout_error remove_first].
    rewrite String.eqb_refl. destruct w. reflexivity.
Qed.

Lemma C2_form_document_has_empty_outline_witness :
  _extract_headings {| doc_name := "form.pdf"; doc_pages := form_pages |}
  = Ok []
  /\ (forall r w', extract_outline sample_files "form.pdf" w0 = (Ok r, w') ->
                   outline r = [])
  /\ (forall t,
        _extract_title {| doc_name := "form.pdf"; doc_pages := form_pages |}
        = Ok t ->
        extract_outline sample_files "form.pdf" w0
        = (Ok {| title := t; outline := [] |}, w0)).
Proof.
  apply (C2_form_document_has_empty_outline sample_files "form.pdf" w0
           form_pages "Application form for grant of LTC advance").
  - vm_compute; reflexivity.
  - vm_compute; reflexivity.
  - vm_compute; reflexivity.
Defined.

(** When nothing raises, the handle [fitz.open] created is closed again. *)
Lemma outline_body_closes fs pdf_path w r w' :
  outline_body fs pdf_path w = (Ok r, w') -> open_docs w' = open_docs w.
Proof.
  intros H. apply outline_body_ok in H as (_ & _ & _ & _ & ->).
  simpl. now rewrite String.eqb_refl.
Qed.

(** C5 (as the code has it): an exception of class [Exception] raised
    while the document is opened or processed is caught inside
    [extract_outline], which prints the error line and, when that line
    is printed, returns the empty record. An exception outside class
    [Exception] is not caught: it reaches the caller. *)
Theorem C5_exceptions_of_class_Exception_are_caught
    (fs : Files) (pdf_path : string) (w : World) (e : exn) :
  raises_in_body fs pdf_path e ->
  (is_Exception e = true ->
   stdout_error w (error_line pdf_path e) = None ->
   exists w',
     extract_outline fs pdf_path w
     = (Ok {| title := ""; outline := [] |}, w')
     /\ console w' = console w ++ [error_line pdf_path e])
  /\ (is_Exception e = false ->
      exists w',
        extract_outline fs pdf_path w = (Raise e, w')
        /\ console w' = console w).
Proof.
  unfold raises_in_body, extract_outline, try_except, outline_body,
    fitz_open, lift, doc_close, print, mbind, M_bind, mret, M_ret,
    error_line.
  intros [Hfs|(pages & Hfs & [Ht|[(t & Ht) Hh]])]; rewrite Hfs;
    rewrite ?Ht, ?Hh; cbn [stdout_error console].
  all: split; intros Hclass; rewrite Hclass;
    [intros Hout; rewrite Hout|]; eexists; split; reflexivity.
Qed.

Lemma C5_exceptions_of_class_Exception_are_caught_witness :
  (exists w',
      extract_outline sample_files "broken.pdf" w0
      = (Ok {| title := ""; outline := [] |}, w')
      /\ console w'
         = console w0
           ++ [error_line "broken.pdf" (Exception "cannot load page")])
  /\ (exists w',
        extract_outline interrupted_files "slow.pdf" w0
        = (Raise (BaseException "KeyboardInterrupt"), w')
        /\ console w' = console w0).
Proof.
  split.
  - apply (C5_exceptions_of_class_Exception_are_caught sample_files
             "broken.pdf" w0 (Exception "cannot load page")).
    + right. exists broken_pages. split; [reflexivity|]. left. reflexivity.
    + reflexivity.
    + reflexivity.
  - apply (C5_exceptions_of_class_Exception_are_caught interrupted_files
             "slow.pdf" w0 (BaseException "KeyboardInterrupt")).
    + right. exists interrupted_pages. split; [reflexivity|].
      left. reflexivity.
    + reflexivity.
Defined.

(** C5, refuted as stated: an exception reaches the caller when
    [KeyboardInterrupt] is raised while the first page is read, and when
    the file cannot be opened and the error line has a character the
    standard output cannot encode, so that the [print] of the [except]
    clause raises. *)
Lemma C5_exception_escapes :
  extract_outline interrupted_files "slow.pdf" w0
  = (Raise (BaseException "KeyboardInterrupt"),
     {| open_docs := ["slow.pdf"]; console := [];
        stdout_error := fun _ => None |})
  /\ sample_files accented_path = Raise (Exception "no such file")
  /\ extract_outline sample_files accented_path ascii_stdout
     = (Raise (Exception "'ascii' codec can't encode character"),
        ascii_stdout).
Proof. vm_compute. repeat split; reflexivity. Qed.

(** C6, evaluated where it fails: the document opens, reading its first
    page raises, and [extract_outline] returns the empty record with the
    handle still among the open ones; [doc.close()] is only reached when
    nothing raised. *)
Theorem C6_handle_left_open_on_error :
  sample_files "broken.pdf" = Ok broken_pages
  /\ extract_outline sample_files "broken.pdf" w0
     = (Ok {| title := ""; outline := [] |},
        {| open_docs := ["broken.pdf"];
           console := ["Error processing broken.pdf: cannot load page"];
           stdout_error := fun _ => None |}).
Proof. vm_compute. split; reflexivity. Qed.

(** C8: no two entries of a returned outline have the same text; and the
    deduplication loop keeps, in discovery order, exactly the candidates
    whose stripped text did not occur earlier. *)
Theorem C8_outline_texts_are_distinct
    (fs : Files) (pdf_path : string) (w w' : World) (r : Outline) :
  extract_outline fs pdf_path w = (Ok r, w') ->
  List.NoDup (map text (outline r))
  /\ forall hs, unique_headings hs = keep_first [] hs.
Proof.
  intros Hrun. split; [|apply unique_headings_keep_first].
  apply extract_outline_outline in Hrun as [->|(pages & _ & Hh)];
    [constructor|].
  apply extract_headings_cases in Hh
    as (dtl & _ & [[_ ->]|(_ & hs & _ & ->)]); [constructor|].
  apply filter_headings_NoDup.
Qed.

Lemma C8_outline_texts_are_distinct_witness :
  List.NoDup
    ["Executive Summary"; "Project Timeline"; "Appendix A";
     "Background of the programme"]
  /\ forall hs, unique_headings hs = keep_first [] hs.
Proof.
  apply (C8_outline_texts_are_distinct sample_files "rfp.pdf" w0 w0
           {| title := "Executive Summary";
              outline :=
                [ {| level := H1; text := "Executive Summary"; page := 0 |};
                  {| level := H3; text := "Project Timeline"; page := 0 |};
                  {| level := H2; text := "Appendix A"; page := 0 |};
                  {| level := H1; text := "Background of the programme";
                     page := 1 |} ] |}).
  vm_compute; reflexivity.
Defined.

(** C9: the pages of a returned outline never decrease; outside the two
    single-heading profiles the outline is the page-sorted list of the
    leveled unique candidates, and the entries of any one page stand in
    their discovery order. *)
Theorem C9_outline_sorted_by_page
    (fs : Files) (pdf_path : string) (w w' : World) (r : Outline) :
  extract_outline fs pdf_path w = (Ok r, w') ->
  StronglySorted page_le (outline r)
  /\ forall hs dtl p,
      PyStr.contains "pathway options" dtl
      || PyStr.contains "stem pathways" dtl = false ->
      PyStr.contains "hope to see you" dtl
      || PyStr.contains "rsvp" dtl = false ->
      List.filter (on_page p) (_filter_headings hs dtl)
      = List.filter (on_page p) (map (to_entry dtl) (unique_headings hs)).
Proof.
  intros Hrun. split.
  - apply extract_outline_outline in Hrun as [->|(pages & _ & Hh)];
      [constructor|].
    apply extract_headings_cases in Hh
      as (dtl & _ & [[_ ->]|(_ & hs & _ & ->)]); [constructor|].
    apply filter_headings_sorted.
  - intros hs dtl p Hpath Hrsvp. unfold _filter_headings.
    destruct hs as [|h0 hs0]; [reflexivity|].
    rewrite Hpath, Hrsvp. apply sort_by_page_stable.
Qed.

Lemma C9_outline_sorted_by_page_witness :
  StronglySorted page_le
    [ {| level := H1; text := "Executive Summary"; page := 0 |};
      {| level := H3; text := "Project Timeline"; page := 0 |};
      {| level := H2; text := "Appendix A"; page := 0 |};
      {| level := H1; text := "Background of the programme"; page := 1 |} ]
  /\ List.filter (on_page 0) (_filter_headings rfp_headings rfp_text_lower)
     = List.filter (on_page 0)
         (map (to_entry rfp_text_lower) (unique_headings rfp_headings)).
Proof.
  destruct (C9_outline_sorted_by_page sample_files "rfp.pdf" w0 w0
              {| title := "Executive Summary";
                 outline :=
                   [ {| level := H1; text := "Executive Summary"; page := 0 |};
                     {| level := H3; text := "Project Timeline"; page := 0 |};
                     {| level := H2; text := "Appendix A"; page := 0 |};
                     {| level := H1; text := "Background of the programme";
                        page := 1 |} ] |}) as [Hsorted Hstable].
  - vm_compute; reflexivity.
  - split; [exact Hsorted|].
    apply Hstable; vm_compute; reflexivity.
Defined.

(** C10: in every document, a block whose text contains one of the form
    labels, whatever the case of its letters, is skipped by the exclusion
    rules before the inclusion rules are consulted; so no entry of a
    returned outline contains "service" or "designation", and "Web
    Services Overview" is among the excluded texts. *)
Theorem C10_form_labels_never_in_outline
    (fs : Files) (pdf_path : string) (w w' : World) (r : Outline) (e : Entry)
    (pn : nat) (dtl : string) (hs : list Heading) (lines : list Line) :
  existsb (fun label =>
             icontains label (PyStr.strip (acc_text (heading_scan lines))))
          form_patterns = true ->
  extract_outline fs pdf_path w = (Ok r, w') ->
  In e (outline r) ->
  heading_block pn dtl hs (TextBlock lines) = hs
  /\ icontains "service" (text e) = false
  /\ icontains "designation" (text e) = false
  /\ _is_obviously_not_heading "Web Services Overview" = true.
Proof.
  intros Hlabel Hrun Hin. split; [|split; [|split]].
  - apply excluded_block_skipped, form_label_excluded.
    exact Hlabel.
  - destruct (extract_outline_from_accepted _ _ _ _ _ _ Hrun Hin)
      as (dtl' & h & [Hkeep _] & ->).
    apply kept_has_no_form_label; [exact Hkeep | simpl; tauto].
  - destruct (extract_outline_from_accepted _ _ _ _ _ _ Hrun Hin)
      as (dtl' & h & [Hkeep _] & ->).
    apply kept_has_no_form_label; [exact Hkeep | simpl; tauto].
  - vm_compute; reflexivity.
Qed.

Lemma C10_form_labels_never_in_outline_witness :
  heading_block 0 "" []
    (TextBlock [ {| spans := [mk_span "Web Services Overview" 18 true 90] |} ])
  = []
  /\ icontains "service" "Appendix A" = false
  /\ icontains "designation" "Appendix A" = false
  /\ _is_obviously_not_heading "Web Services Overview" = true.
Proof.
  apply (C10_form_labels_never_in_outline sample_files "rfp.pdf" w0 w0
           {| title := "Executive Summary";
              outline :=
                [ {| level := H1; text := "Executive Summary"; page := 0 |};
                  {| level := H3; text := "Project Timeline"; page := 0 |};
                  {| level := H2; text := "Appendix A"; page := 0 |};
                  {| level := H1; text := "Background of the programme";
                     page := 1 |} ] |}
           {| level := H2; text := "Appendix A"; page := 0 |}).
  - vm_compute; reflexivity.
  - vm_compute; reflexivity.
  - simpl; tauto.
Defined.

(** ** Profiles *)

Section Profiles.

Lemma classify_single dtl :
  classify dtl = PathwayFlyer \/ classify dtl = RsvpInvite ->
  is_form_document dtl = false
  /\ forall hs,
      _filter_headings hs dtl
      = single_heading (profile_phrase (classify dtl)) (unique_headings hs).
Proof.
  unfold classify, is_form_document, _filter_headings.
  destruct (PyStr.contains "application form" dtl
            || PyStr.contains "government servant" dtl);
    [intros [|]; discriminate|].
  destruct (PyStr.contains "pathway options" dtl
            || PyStr.contains "stem pathways" dtl).
  - intros _. split; [reflexivity|]. now intros [|h hs].
  - destruct (PyStr.contains "hope to see you" dtl
              || PyStr.contains "rsvp" dtl).
    + intros _. split; [reflexivity|]. now intros [|h hs].
    + destruct (PyStr.contains "foundation level" dtl);
        [intros [|]; discriminate|].
      destruct (_ || _); intros [|]; discriminate.
Qed.

Lemma extract_headings_run doc dtl hs :
  doc_text_lower_of doc = Ok dtl ->
  is_form_document dtl = false ->
  page_loop (doc_pages doc) 0 dtl [] = Ok hs ->
  _extract_headings doc = Ok (_filter_headings hs dtl).
Proof.
  intros Ht Hform Hloop. unfold _extract_headings.
  rewrite Ht. cbn [mbind result_bind]. rewrite Hform, Hloop. reflexivity.
Qed.

Lemma level_of_keyword dtl h :
  PyStr.contains "rfp" dtl || PyStr.contains "digital library" dtl = true ->
  level_of dtl h = keyword_level (h_text h).
Proof. intros H. unfold level_of, keyword_level, icontains. now rewrite H. Qed.

End Profiles.

(** C4: in a pathway flyer or an RSVP invite the outline has at most one
    entry; an entry has level H1 and page 0, and its text is that of a
    unique candidate containing the profile's phrase, whatever the case
    of its letters; the outline is empty exactly when no unique candidate
    contains the phrase. The record [extract_outline] returns carries
    that outline or the empty one. *)
Theorem C4_single_heading_profiles
    (fs : Files) (pdf_path : string) (w w' : World) (r : Outline)
    (pages : list Page) (dtl : string) (hs : list Heading) :
  fs pdf_path = Ok pages ->
  doc_text_lower_of {| doc_name := pdf_path; doc_pages := pages |} = Ok dtl ->
  classify dtl = PathwayFlyer \/ classify dtl = RsvpInvite ->
  page_loop pages 0 dtl [] = Ok hs ->
  extract_outline fs pdf_path w = (Ok r, w') ->
  exists o,
    _extract_headings {| doc_name := pdf_path; doc_pages := pages |} = Ok o
    /\ (outline r = o \/ outline r = [])
    /\ (length o <= 1)%nat
    /\ (forall e, In e o ->
          level e = H1 /\ page e = 0%nat
          /\ icontains (profile_phrase (classify dtl)) (text e) = true
          /\ exists h, In h (unique_headings hs) /\ text e = h_text h)
    /\ (o = [] <->
        Forall (fun h =>
                  icontains (profile_phrase (classify dtl)) (h_text h) = false)
               (unique_headings hs)).
Proof.
  intros Hfs Ht Hprofile Hloop Hrun.
  destruct (classify_single dtl Hprofile) as [Hform Hfilter].
  pose proof (extract_headings_run _ _ _ Ht Hform Hloop) as Hh.
  rewrite Hfilter in Hh.
  exists (single_heading (profile_phrase (classify dtl)) (unique_headings hs)).
  split; [exact Hh|]. split.
  { apply extract_outline_outline in Hrun as [E|(pages' & Hfs' & Hh')];
      [now right|left].
    rewrite Hfs in Hfs'. inversion Hfs'; subst pages'.
    rewrite Hh in Hh'. now inversion Hh'. }
  destruct (single_heading_cases (profile_phrase (classify dtl))
              (unique_headings hs))
    as [[-> Hall]|(h & Hin & Hk & ->)].
  - split; [simpl; lia|]. split; [intros e []|]. split; auto.
  - split; [simpl; lia|]. split.
    + intros e [<-|[]]. simpl. repeat split; try exact Hk. eauto.
    + split; [discriminate|]. intros Hall.
      rewrite List.Forall_forall in Hall. apply Hall in Hin. congruence.
Qed.

Lemma C4_single_heading_profiles_witness :
  exists o,
    _extract_headings flyer_doc = Ok o
    /\ ([ {| level := H1; text := "Pathway Options"; page := 0 |} ] = o
        \/ [ {| level := H1; text := "Pathway Options"; page := 0 |} ] = [])
    /\ (length o <= 1)%nat
    /\ (forall e, In e o ->
          level e = H1 /\ page e = 0%nat
          /\ icontains (profile_phrase (classify flyer_text_lower)) (text e)
             = true
          /\ exists h, In h (unique_headings flyer_headings)
                       /\ text e = h_text h)
    /\ (o = [] <->
        Forall (fun h =>
                  icontains (profile_phrase (classify flyer_text_lower))
                            (h_text h) = false)
               (unique_headings flyer_headings)).
Proof.
  apply (C4_single_heading_profiles sample_files "flyer.pdf" w0 w0
           {| title := "";
              outline :=
                [ {| level := H1; text := "Pathway Options"; page := 0 |} ] |}
           flyer_pages flyer_text_lower flyer_headings).
  - vm_compute; reflexivity.
  - vm_compute; reflexivity.
  - left; vm_compute; reflexivity.
  - vm_compute; reflexivity.
  - vm_compute; reflexivity.
Defined.

(** C7: when the lower-cased text of the first pages contains "rfp" or
    "digital library" and the document is neither a form nor one of the
    two single-heading profiles, the outline is the page-sorted list of
    the unique candidates, each leveled by keyword: H1 for summary,
    background, milestones, approach or evaluation, else H2 for appendix,
    terms of reference or membership, else H3. "Executive Summary" gets
    H1. *)
Theorem C7_rfp_levels_by_keyword
    (doc : Document) (dtl : string) (hs : list Heading) :
  doc_text_lower_of doc = Ok dtl ->
  is_form_document dtl = false ->
  PyStr.contains "pathway options" dtl
  || PyStr.contains "stem pathways" dtl = false ->
  PyStr.contains "hope to see you" dtl || PyStr.contains "rsvp" dtl = false ->
  PyStr.contains "rfp" dtl || PyStr.contains "digital library" dtl = true ->
  page_loop (doc_pages doc) 0 dtl [] = Ok hs ->
  exists o,
    _extract_headings doc = Ok o
    /\ o = sort_by_page
             (map (fun h => {| level := keyword_level (h_text h);
                               text := h_text h;
                               page := h_page h |})
                  (unique_headings hs))
    /\ (forall e, In e o -> level e = keyword_level (text e))
    /\ (forall h, In h (unique_headings hs) ->
          In {| level := keyword_level (h_text h);
                text := h_text h; page := h_page h |} o)
    /\ keyword_level "Executive Summary" = H1.
Proof.
  intros Ht Hform Hpath Hrsvp Hrfp Hloop.
  pose proof (extract_headings_run _ _ _ Ht Hform Hloop) as Hh.
  assert (Hmap : map (to_entry dtl) (unique_headings hs)
                 = map (fun h => {| level := keyword_level (h_text h);
                                    text := h_text h;
                                    page := h_page h |})
                       (unique_headings hs)).
  { apply map_ext. intros h. unfold to_entry.
    now rewrite level_of_keyword. }
  assert (Hf : _filter_headings hs dtl
               = sort_by_page
                   (map (fun h => {| level := keyword_level (h_text h);
                                     text := h_text h;
                                     page := h_page h |})
                        (unique_headings hs))).
  { unfold _filter_headings. destruct hs as [|h0 hs0]; [reflexivity|].
    now rewrite Hpath, Hrsvp, Hmap. }
  eexists. split; [exact Hh|]. split; [exact Hf|]. rewrite Hf.
  split; [|split].
  - intros e Hin.
    apply (Permutation_in _ (sort_by_page_perm _)) in Hin.
    apply in_map_iff in Hin as (h & <- & _). reflexivity.
  - intros h Hin.
    apply (Permutation_in _ (Permutation_sym (sort_by_page_perm _))).
    apply in_map_iff. eauto.
  - vm_compute; reflexivity.
Qed.

Lemma C7_rfp_levels_by_keyword_witness :
  exists o,
    _extract_headings rfp_doc = Ok o
    /\ o = sort_by_page
             (map (fun h => {| level := keyword_level (h_text h);
                               text := h_text h;
                               page := h_page h |})
                  (unique_headings rfp_headings))
    /\ (forall e, In e o -> level e = keyword_level (text e))
    /\ (forall h, In h (unique_headings rfp_headings) ->
          In {| level := keyword_level (h_text h);
                text := h_text h; page := h_page h |} o)
    /\ keyword_level "Executive Summary" = H1.
Proof.
  apply (C7_rfp_levels_by_keyword rfp_doc rfp_text_lower rfp_headings).
  - vm_compute; reflexivity.
  - vm_compute; reflexivity.
  - vm_compute; reflexivity.
  - vm_compute; reflexivity.
  - vm_compute; reflexivity.
  - vm_compute; reflexivity.
Defined.

(** ** The title scan *)

Section TitleScan.

Lemma Qgt_bool_spec a b : Qgt_bool a b = true <-> (b < a)%Q.
Proof.
  unfold Qgt_bool. rewrite negb_true_iff.
  destruct (Qle_bool a b) eqn:E.
  - apply Qle_bool_iff in E. split; [discriminate|].
    intros H. exfalso. now apply (Qlt_not_le _ _ H).
  - split; [intros _|reflexivity].
    apply Qnot_le_lt. intros H. apply Qle_bool_iff in H. congruence.
Qed.

Lemma Qlt_bool_spec a b : Qlt_bool a b = true <-> (a < b)%Q.
Proof. apply Qgt_bool_spec. Qed.

Lemma bool_eq_iff (x y : bool) : (x = true <-> y = true) -> x = y.
Proof. destruct x, y; intuition congruence. Qed.

(** The running maximum exceeds a bound as soon as one of its two
    arguments does. *)
Lemma py_max_above a s b :
  Qgt_bool (py_max a s) b = Qgt_bool a b || Qgt_bool s b.
Proof.
  apply bool_eq_iff. rewrite orb_true_iff, !Qgt_bool_spec.
  unfold py_max. destruct (Qgt_bool s a) eqn:E.
  - apply Qgt_bool_spec in E.
    split; [now right|]. intros [H|H]; [|exact H].
    now apply Qlt_trans with a.
  - split; [now left|]. intros [H|H]; [exact H|].
    apply Qlt_le_trans with s; [exact H|].
    apply Qnot_lt_le. intros Hlt. apply Qgt_bool_spec in Hlt. congruence.
Qed.

Lemma py_min_below a s b :
  ypos_lt (py_min a s) b = ypos_lt a b || Qlt_bool s b.
Proof.
  destruct a as [|q]; simpl; [reflexivity|].
  apply bool_eq_iff. rewrite orb_true_iff.
  destruct (Qlt_bool s q) eqn:E; simpl; rewrite !Qlt_bool_spec.
  - apply Qlt_bool_spec in E.
    split; [now right|]. intros [H|H]; [|exact H].
    now apply Qlt_trans with q.
  - split; [now left|]. intros [H|H]; [exact H|].
    apply Qle_lt_trans with s; [|exact H].
    apply Qnot_lt_le. intros Hlt. apply Qlt_bool_spec in Hlt. congruence.
Qed.

Lemma max_font_size_above sp b :
  above (max_font_size sp) b
  = existsb (fun s => Qgt_bool (span_size s) b) sp.
Proof.
  induction sp as [|s sp IH]; simpl; [reflexivity|].
  rewrite <- IH. destruct (max_font_size sp) as [m|]; simpl.
  - change (if Qgt_bool (span_size s) m then span_size s else m)
      with (py_max m (span_size s)).
    rewrite py_max_above. apply orb_comm.
  - now rewrite orb_false_r.
Qed.

Lemma min_top_below sp b :
  below (min_top sp) b
  = existsb (fun s => Qlt_bool (bbox_top (span_bbox s)) b) sp.
Proof.
  induction sp as [|s sp IH]; simpl; [reflexivity|].
  rewrite <- IH. destruct (min_top sp) as [m|]; simpl.
  - pose proof (py_min_below (Finite m) (bbox_top (span_bbox s)) b) as H.
    simpl in H.
    destruct (Qlt_bool (bbox_top (span_bbox s)) m); simpl in H;
      rewrite orb_comm; exact H.
  - now rewrite orb_false_r.
Qed.

(** The two nested loops visit the spans of the block in order. *)
Lemma nested_fold {S} (f : S -> Span -> S) (lines : list Line) (acc : S) :
  fold_left (fun a line => fold_left f (spans line) a) lines acc
  = fold_left f (block_spans lines) acc.
Proof.
  revert acc. induction lines as [|l lines IH]; intros acc; simpl.
  - reflexivity.
  - rewrite IH. unfold block_spans. now rewrite fold_left_app.
Qed.

Lemma str_app_nil_r (s : string) : (s ++ "")%string = s.
Proof.
  induction s as [|c s IH]; [reflexivity|].
  change (String c (s ++ "")%string = String c s). now rewrite IH.
Qed.

Lemma str_app_assoc (a b c : string) :
  ((a ++ b) ++ c)%string = (a ++ (b ++ c))%string.
Proof.
  induction a as [|x a IH]; [reflexivity|].
  change (String x ((a ++ b) ++ c)%string = String x (a ++ (b ++ c))%string).
  now rewrite IH.
Qed.

Lemma title_fold sp acc :
  let out := fold_left title_span sp acc in
  tc_text out = (tc_text acc ++ joined_text sp)%string
  /\ tc_bold out = tc_bold acc || any_bold sp
  /\ (forall b, Qgt_bool (tc_size out) b
                = Qgt_bool (tc_size acc) b
                  || existsb (fun s => Qgt_bool (span_size s) b) sp)
  /\ (forall b, ypos_lt (tc_position out) b
                = ypos_lt (tc_position acc) b
                  || existsb (fun s => Qlt_bool (bbox_top (span_bbox s)) b)
                             sp).
Proof.
  revert acc. induction sp as [|s sp IH]; intros acc; simpl.
  - rewrite str_app_nil_r.
    repeat split; intros; now rewrite orb_false_r.
  - destruct (IH (title_span acc s)) as (Ht & Hb & Hs & Hp).
    repeat split.
    + rewrite Ht. simpl. apply str_app_assoc.
    + rewrite Hb. simpl.
      destruct (bold_flag (span_flags s)), (tc_bold acc); reflexivity.
    + intros b. rewrite Hs. simpl. now rewrite py_max_above, orb_assoc.
    + intros b. rewrite Hp. simpl. now rewrite py_min_below, orb_assoc.
Qed.

End TitleScan.

(** ** The title candidates and the choice among them *)

Section TitleChoice.

Lemma title_block_emit cands b :
  title_block cands b = cands ++ title_block [] b.
Proof.
  destruct b as [lines|]; simpl; [|now rewrite app_nil_r].
  destruct (_ && _); now rewrite ?app_nil_r.
Qed.

Lemma title_block_candidate b :
  title_block [] b = map candidate_of (page0_candidate b).
Proof.
  destruct b as [lines|]; [|reflexivity].
  unfold title_block, page0_candidate, title_scan.
  rewrite nested_fold.
  destruct (title_fold (block_spans lines) title_block_init) as [Ht _].
  cbv zeta in Ht. rewrite Ht.
  change (tc_text title_block_init ++ joined_text (block_spans lines))%string
    with (joined_text (block_spans lines)).
  cbv zeta. destruct (_ && _); reflexivity.
Qed.

Lemma title_candidates_spec blocks :
  title_candidates blocks = map candidate_of (page0_candidates blocks).
Proof.
  unfold title_candidates, page0_candidates.
  rewrite (fold_left_emit _ _ title_block_emit). simpl.
  induction blocks as [|b blocks IH]; simpl; [reflexivity|].
  now rewrite map_app, IH, title_block_candidate.
Qed.

Lemma title_score_candidate c :
  title_score (candidate_of c) = candidate_score c.2.
Proof.
  destruct c as [t sp]. unfold title_score, candidate_score, candidate_of.
  cbn [fst snd tc_size tc_bold tc_position].
  destruct (title_fold sp title_block_init) as (_ & Hb & Hs & Hp).
  cbv zeta in Hb, Hs, Hp.
  rewrite Hb, !Hs, Hp, !max_font_size_above, min_top_below.
  change (tc_bold title_block_init) with false.
  change (Qgt_bool (tc_size title_block_init) 16) with false.
  change (Qgt_bool (tc_size title_block_init) 14) with false.
  change (ypos_lt (tc_position title_block_init) 200) with false.
  cbn [orb].
  repeat match goal with
         | |- context [if ?c then _ else _] => destruct c
         end; reflexivity.
Qed.

Lemma py_max_by_snoc {A} (key : A -> Z) x xs y :
  py_max_by key x (xs ++ [y])
  = if (key (py_max_by key x xs) <? key y)%Z then y
    else py_max_by key x xs.
Proof. unfold py_max_by. now rewrite fold_left_app. Qed.

(** [max] with a key returns the first of the elements with the largest
    key: everything before it is strictly smaller. *)
Lemma py_max_by_first {A} (key : A -> Z) (x : A) (xs : list A) :
  exists before c after,
    x :: xs = before ++ c :: after
    /\ py_max_by key x xs = c
    /\ Forall (fun a => (key a < key c)%Z) before
    /\ Forall (fun a => (key a <= key c)%Z) after.
Proof.
  induction xs as [|y xs IH] using rev_ind.
  - exists [], x, []. repeat split; constructor.
  - destruct IH as (before & c & after & Hsplit & Hc & Hb & Ha).
    rewrite py_max_by_snoc, Hc.
    destruct (key c <? key y)%Z eqn:E.
    + apply Z.ltb_lt in E.
      exists (x :: xs), y, []. repeat split; [|constructor].
      rewrite Hsplit. apply Forall_app. split.
      * eapply Forall_impl; [exact Hb|]. simpl. intros; lia.
      * constructor; [exact E|].
        eapply Forall_impl; [exact Ha|]. simpl. intros; lia.
    + apply Z.ltb_ge in E.
      exists before, c, (after ++ [y]). repeat split.
      * change (x :: xs ++ [y]) with ((x :: xs) ++ [y]).
        rewrite Hsplit, <- app_assoc. reflexivity.
      * exact Hb.
      * apply Forall_app. split; [exact Ha|]. now constructor.
Qed.

Lemma py_max_by_map {A B} (f : A -> B) (key : B -> Z) xs :
  forall x,
    py_max_by key (f x) (map f xs)
    = f (py_max_by (fun a => key (f a)) x xs).
Proof.
  unfold py_max_by. induction xs as [|y xs IH]; intros x; simpl.
  - reflexivity.
  - destruct (key (f x) <? key (f y))%Z; apply IH.
Qed.

Lemma py_max_by_ext {A} (k1 k2 : A -> Z) xs :
  (forall a, k1 a = k2 a) ->
  forall x, py_max_by k1 x xs = py_max_by k2 x xs.
Proof.
  intros Hk. unfold py_max_by.
  induction xs as [|y xs IH]; intros x; simpl; [reflexivity|].
  rewrite !Hk. destruct (k2 x <? k2 y)%Z; apply IH.
Qed.

(** The choice of [pick_title], told on block candidates. *)
Lemma pick_title_spec (cands : list (string * list Span)) :
  (cands = [] /\ pick_title (map candidate_of cands) = "")
  \/ exists before c after,
      cands = before ++ c :: after
      /\ Forall (fun a => (candidate_score a.2 < candidate_score c.2)%Z)
                before
      /\ Forall (fun a => (candidate_score a.2 <= candidate_score c.2)%Z)
                after
      /\ pick_title (map candidate_of cands)
         = if (2 <? candidate_score c.2)%Z then c.1 else "".
Proof.
  destruct cands as [|x xs]; [left; split; reflexivity|right].
  destruct (py_max_by_first (fun a => candidate_score a.2) x xs)
    as (before & c & after & Hsplit & Hc & Hb & Ha).
  exists before, c, after. repeat split; try assumption.
  cbn [map pick_title]. cbv zeta.
  rewrite py_max_by_map.
  rewrite (py_max_by_ext _ (fun a => candidate_score a.2))
    by apply title_score_candidate.
  rewrite Hc, title_score_candidate. reflexivity.
Qed.

End TitleChoice.

(** C3: the title is "" when no page-0 block candidate scores above 2;
    otherwise it is the stripped text of the first of the candidates with
    the highest score. A candidate is a block of page 0 whose stripped
    text has more than 10 and fewer than 200 characters; its score is 3
    for a bold span, plus 2 for a largest font size above 16 or else 1
    for one above 14, plus 2 for a smallest top coordinate below 200. *)
Theorem C3_title_is_first_best_candidate
    (doc : Document) (blocks : list Block) :
  page0_blocks doc = Ok blocks ->
  (Forall (fun c => (candidate_score c.2 <= 2)%Z) (page0_candidates blocks) ->
   _extract_title doc = Ok "")
  /\ (Exists (fun c => (2 < candidate_score c.2)%Z) (page0_candidates blocks) ->
      exists before c after,
        page0_candidates blocks = before ++ c :: after
        /\ Forall (fun a => (candidate_score a.2 < candidate_score c.2)%Z)
                  before
        /\ Forall (fun a => (candidate_score a.2 <= candidate_score c.2)%Z)
                  after
        /\ (2 < candidate_score c.2)%Z
        /\ _extract_title doc = Ok c.1).
Proof.
  intros Hblocks.
  assert (Ht : _extract_title doc
               = Ok (pick_title (map candidate_of (page0_candidates blocks)))).
  { unfold _extract_title, page0_blocks in *.
    destruct (doc_pages doc) as [|first_page rest].
    - inversion Hblocks. reflexivity.
    - rewrite Hblocks. cbn [mbind result_bind].
      now rewrite title_candidates_spec. }
  rewrite Ht.
  destruct (pick_title_spec (page0_candidates blocks))
    as [[-> ->]|(before & c & after & Hsplit & Hb & Ha & ->)].
  - split; [reflexivity|]. intros H. inversion H.
  - split.
    + intros Hall. rewrite Hsplit in Hall.
      apply Forall_app in Hall as [_ Hall].
      apply Forall_cons in Hall as [Hc _].
      apply Z.ltb_ge in Hc. now rewrite Hc.
    + intros Hex.
      assert (Hc : (2 < candidate_score c.2)%Z).
      { rewrite Hsplit in Hex.
        apply Exists_app in Hex as [Hex|Hex].
        - apply Exists_exists in Hex as (a & Hin & Hgt).
          rewrite Forall_forall in Hb. apply Hb in Hin. lia.
        - apply Exists_cons in Hex as [Hex|Hex]; [exact Hex|].
          apply Exists_exists in Hex as (a & Hin & Hgt).
          rewrite Forall_forall in Ha. apply Ha in Hin. lia. }
      exists before, c, after. repeat split; try assumption.
      apply Z.ltb_lt in Hc. now rewrite Hc.
Qed.

Lemma C3_title_is_first_best_candidate_witness :
  exists before c after,
    page0_candidates rfp_blocks = before ++ c :: after
    /\ Forall (fun a => (candidate_score a.2 < candidate_score c.2)%Z) before
    /\ Forall (fun a => (candidate_score a.2 <= candidate_score c.2)%Z) after
    /\ (2 < candidate_score c.2)%Z
    /\ _extract_title rfp_doc = Ok c.1.
Proof.
  destruct (C3_title_is_first_best_candidate rfp_doc rfp_blocks) as [_ Hbest].
  - vm_compute; reflexivity.
  - apply Hbest. apply Exists_cons_hd. vm_compute; reflexivity.
Defined.

(** * Further properties of the code *)

(** ** The matcher on runs of one character class *)

Section Runs.

Lemma closure_cls p m :
  forall n s,
    (String.length s <= m)%nat ->
    Re.closure (Re.ends (Re.Cls p)) m (n, s) = run_states p n s.
Proof.
  induction m as [|m IH]; intros n s Hlen.
  - destruct s as [|c s']; [reflexivity | simpl in Hlen; lia].
  - destruct s as [|c s']; [reflexivity|].
    cbn [Re.closure Re.ends snd fst run_states].
    destruct (p c); [|reflexivity].
    assert (Hn : Re.progress (n, String c s') (S n, s') = true)
      by (apply Nat.ltb_lt; simpl; lia).
    cbn [List.filter]. rewrite Hn. cbn [flat_map]. rewrite app_nil_r.
    rewrite IH by (simpl in Hlen; lia). reflexivity.
Qed.

Lemma ends_star_cls p x : Re.ends (Re.Star (Re.Cls p)) x = run_states p x.1 x.2.
Proof. destruct x as [n s]. apply closure_cls. simpl. lia. Qed.

Lemma ends_plus_cls p n s :
  Re.ends (Re.Plus (Re.Cls p)) (n, s)
  = match s with
    | String c s' => if p c then run_states p (S n) s' else []
    | EmptyString => []
    end.
Proof.
  cbn [Re.ends snd fst]. destruct s as [|c s']; [reflexivity|].
  destruct (p c); [|reflexivity].
  cbn [flat_map snd]. rewrite app_nil_r. apply closure_cls. lia.
Qed.

(** One or more is a case of zero or more. *)
Lemma plus_in_star p x z :
  In z (Re.ends (Re.Plus (Re.Cls p)) x) ->
  In z (Re.ends (Re.Star (Re.Cls p)) x).
Proof.
  destruct x as [n s]. rewrite ends_plus_cls, ends_star_cls.
  destruct s as [|c s']; [intros []|]. cbn [fst snd run_states].
  destruct (p c); [|intros []]. intros H. apply in_or_app. now left.
Qed.

(** A run of the class over the whole text can stop at its end. *)
Lemma run_states_all p s :
  forall n,
    forallb p (list_ascii_of_string s) = true ->
    In ((n + String.length s)%nat, "") (run_states p n s).
Proof.
  induction s as [|c s IH]; intros n H; simpl in *.
  - left. f_equal. lia.
  - apply andb_true_iff in H as [Hc Hs]. rewrite Hc.
    apply in_or_app. left.
    replace (n + S (String.length s))%nat with (S n + String.length s)%nat
      by lia.
    now apply IH.
Qed.

Lemma in_ends_seq a b x z :
  In z (Re.ends (Re.Seq a b) x)
  <-> exists y, In y (Re.ends a x) /\ In z (Re.ends b y).
Proof. cbn [Re.ends]. apply in_flat_map. Qed.

Lemma matches_true r s :
  Re.matches r s = true <-> exists z, In z (Re.ends r (0%nat, s)).
Proof.
  unfold Re.matches. destruct (Re.ends r (0%nat, s)) as [|z l].
  - split; [discriminate | intros (z & [])].
  - split; [intros _; exists z; now left | reflexivity].
Qed.

End Runs.

(** ** Matching the lower-cased text *)

Section LowerCase.

Lemma length_lower s : String.length (PyStr.lower s) = String.length s.
Proof. induction s as [|c s IH]; simpl; congruence. Qed.

Lemma at_eol_lower s : Re.at_eol s = true -> Re.at_eol (PyStr.lower s) = true.
Proof.
  destruct s as [|c [|c' s']]; simpl; try discriminate; [reflexivity|].
  intros H. apply Ascii.eqb_eq in H. subst c. reflexivity.
Qed.

Lemma lowers_closure (step step' : Re.st -> list Re.st) :
  (forall x y, In y (step x) -> In (lower_state y) (step' (lower_state x))) ->
  forall m x y,
    In y (Re.closure step m x) ->
    In (lower_state y) (Re.closure step' m (lower_state x)).
Proof.
  intros Hstep. induction m as [|m IH]; intros x y; simpl.
  - intros [<-|[]]. now left.
  - intros H. apply in_app_or in H as [H|[<-|[]]].
    + apply in_or_app. left.
      apply in_flat_map in H as (z & Hz & Hy).
      apply filter_In in Hz as [Hz Hp].
      apply in_flat_map. exists (lower_state z). split; [|now apply IH].
      apply filter_In. split; [now apply Hstep | exact Hp].
    + apply in_or_app. right. now left.
Qed.

Lemma lowers_ends r r' :
  lowers r r' ->
  forall x y,
    In y (Re.ends r x) -> In (lower_state y) (Re.ends r' (lower_state x)).
Proof.
  induction 1 as [| |p q Hpq|a a' b b' _ IHa _ IHb|a a' _ IHa|a a' _ IHa
                  |a a' _ IHa]; intros x y.
  - simpl. destruct (x.1 =? 0)%nat; [|intros []]. intros [<-|[]]. now left.
  - simpl. destruct (Re.at_eol x.2) eqn:E; [|intros []].
    rewrite (at_eol_lower _ E). intros [<-|[]]. now left.
  - destruct x as [n [|c s]]; simpl; [intros []|].
    destruct (p c) eqn:E; [|intros []].
    rewrite (Hpq _ E). intros [<-|[]]. now left.
  - rewrite !in_ends_seq. intros (z & Hz & Hy).
    exists (lower_state z). split; [now apply IHa | now apply IHb].
  - cbn [Re.ends]. intros H. apply in_app_or in H as [H|[<-|[]]].
    + apply in_or_app. left. now apply IHa.
    + apply in_or_app. right. now left.
  - cbn [Re.ends]. unfold lower_state at 2. cbn [snd].
    rewrite length_lower. now apply lowers_closure.
  - cbn [Re.ends]. intros H.
    apply in_flat_map in H as (z & Hz & Hy).
    apply in_flat_map. exists (lower_state z). split; [now apply IHa|].
    unfold lower_state at 2. cbn [snd]. rewrite length_lower.
    now apply (lowers_closure _ _ IHa).
Qed.

Lemma digit_lower c : Re.digit c = true -> Re.digit (PyStr.lower_char c) = true.
Proof. destruct c as [[] [] [] [] [] [] [] []]; vm_compute; congruence. Qed.

Lemma space_lower c : Re.space c = true -> Re.space (PyStr.lower_char c) = true.
Proof. destruct c as [[] [] [] [] [] [] [] []]; vm_compute; congruence. Qed.

Lemma dot_lower c :
  Re.lit "." c = true -> Re.lit "." (PyStr.lower_char c) = true.
Proof. destruct c as [[] [] [] [] [] [] [] []]; vm_compute; congruence. Qed.

Lemma alpha_lower c : Re.alpha c = true -> Re.az (PyStr.lower_char c) = true.
Proof. destruct c as [[] [] [] [] [] [] [] []]; vm_compute; congruence. Qed.

End LowerCase.

(** ** Comparing patterns *)

Section Within.

Lemma within_refl r : within r r.
Proof. intros x z H. exact H. Qed.

Lemma within_seq a a' b b' :
  within a a' -> within b b' -> within (Re.Seq a b) (Re.Seq a' b').
Proof.
  intros Ha Hb x z. rewrite !in_ends_seq. intros (y & Hy & Hz).
  exists y. split; [now apply Ha | now apply Hb].
Qed.

Lemma within_plus_star p : within (Re.Plus (Re.Cls p)) (Re.Star (Re.Cls p)).
Proof. intros x z. apply plus_in_star. Qed.

(** The optional group of the numbered-heading pattern is either taken
    or skipped. *)
Lemma numbered_heading_split x z :
  In z (Re.ends Re.numbered_heading x) ->
  In z (Re.ends
          (Re.Seq Re.Bol (Re.Seq (Re.Plus Re.d) (Re.Seq (Re.ch ".")
             (Re.Seq (Re.Plus Re.d)
                (Re.Seq (Re.Plus (Re.Cls Re.space)) (Re.Cls Re.alpha))))))
          x)
  \/ In z (Re.ends
             (Re.Seq Re.Bol (Re.Seq (Re.Plus Re.d) (Re.Seq (Re.ch ".")
                (Re.Seq (Re.Plus (Re.Cls Re.space)) (Re.Cls Re.alpha)))))
             x).
Proof.
  unfold Re.numbered_heading. rewrite !in_ends_seq.
  intros (y1 & H1 & H). apply in_ends_seq in H as (y2 & H2 & H).
  apply in_ends_seq in H as (y3 & H3 & H).
  apply in_ends_seq in H as (y4 & H4 & H).
  cbn [Re.ends] in H4. apply in_app_or in H4 as [H4|[<-|[]]].
  - left. exists y1. split; [exact H1|].
    apply in_ends_seq. exists y2. split; [exact H2|].
    apply in_ends_seq. exists y3. split; [exact H3|].
    apply in_ends_seq. exists y4. split; [exact H4 | exact H].
  - right. exists y1. split; [exact H1|].
    apply in_ends_seq. exists y2. split; [exact H2|].
    apply in_ends_seq. exists y3. split; [exact H3 | exact H].
Qed.

(** Whatever the numbered-heading pattern matches, the list-item pattern
    matches in lower case or the sub-item pattern matches as it is. *)
Lemma numbered_heading_covered t :
  Re.matches Re.numbered_heading t = true ->
  Re.matches Re.list_item (PyStr.lower t) = true
  \/ Re.matches Re.sub_item t = true.
Proof.
  rewrite !matches_true. intros (z & Hz).
  apply numbered_heading_split in Hz as [Hz|Hz].
  - right. exists z. revert Hz. apply within_seq; [apply within_refl|].
    apply within_seq; [apply within_refl|].
    apply within_seq; [apply within_refl|].
    apply within_seq; [apply within_refl|].
    apply within_seq; [apply within_plus_star | apply within_refl].
  - left. exists (lower_state z).
    change (0%nat, PyStr.lower t) with (lower_state (0%nat, t)).
    assert (Hlow : In (lower_state z)
              (Re.ends
                 (Re.Seq Re.Bol (Re.Seq (Re.Plus Re.d) (Re.Seq (Re.ch ".")
                    (Re.Seq (Re.Plus (Re.Cls Re.space)) (Re.Cls Re.az)))))
                 (lower_state (0%nat, t)))).
    { revert Hz. apply lowers_ends.
      repeat first [ apply lowers_Seq | apply lowers_Plus | apply lowers_Bol
                   | apply lowers_Cls ].
      - exact digit_lower.
      - exact dot_lower.
      - exact space_lower.
      - exact alpha_lower. }
    revert Hlow. apply within_seq; [apply within_refl|].
    apply within_seq; [apply within_refl|].
    apply within_seq; [apply within_refl|].
    apply within_seq; [apply within_plus_star | apply within_refl].
Qed.

End Within.

(** A tactic for the chain of tests of [_is_obviously_not_heading]: every
    test that holds returns [True]. *)
Ltac walk_exclusions :=
  unfold _is_obviously_not_heading;
  repeat match goal with
         | |- (if ?c then true else _) = true =>
             let E := fresh "E" in destruct c eqn:E; [reflexivity|]
         end.

Lemma numbered_heading_excluded u :
  Re.matches Re.numbered_heading u = true ->
  _is_obviously_not_heading u = true.
Proof.
  intros Hu. apply numbered_heading_covered in Hu as [Hu|Hu].
  - walk_exclusions. rewrite Hu in *. discriminate.
  - walk_exclusions. rewrite Hu in *. discriminate.
Qed.

(** X1: the numbered-heading pattern of inclusion rule 1 never decides.
    Every text it matches is rejected by the exclusion rules, which run
    first; so no entry of a returned outline matches it. *)
Theorem X1_numbered_heading_rule_is_shadowed
    (fs : Files) (pdf_path : string) (w w' : World) (r : Outline) (e : Entry)
    (t : string) :
  Re.matches Re.numbered_heading t = true ->
  extract_outline fs pdf_path w = (Ok r, w') ->
  In e (outline r) ->
  _is_obviously_not_heading t = true
  /\ Re.matches Re.numbered_heading (text e) = false.
Proof.
  intros Ht Hrun Hin. split; [now apply numbered_heading_excluded|].
  destruct (extract_outline_from_accepted _ _ _ _ _ _ Hrun Hin)
    as (dtl & h & [Hkeep _] & ->).
  destruct (Re.matches Re.numbered_heading (h_text h)) eqn:E; [|reflexivity].
  apply numbered_heading_excluded in E. congruence.
Qed.

Lemma X1_numbered_heading_rule_is_shadowed_witness :
  _is_obviously_not_heading "3. Approach" = true
  /\ Re.matches Re.numbered_heading "Appendix A" = false.
Proof.
  apply (X1_numbered_heading_rule_is_shadowed sample_files "rfp.pdf" w0 w0
           {| title := "Executive Summary";
              outline :=
                [ {| level := H1; text := "Executive Summary"; page := 0 |};
                  {| level := H3; text := "Project Timeline"; page := 0 |};
                  {| level := H2; text := "Appendix A"; page := 0 |};
                  {| level := H1; text := "Background of the programme";
                     page := 1 |} ] |}
           {| level := H2; text := "Appendix A"; page := 0 |}).
  - vm_compute; reflexivity.
  - vm_compute; reflexivity.
  - simpl; tauto.
Defined.

(** ** Where the candidates come from *)

Section Provenance.

Lemma heading_block_spec pn dtl lines :
  heading_block pn dtl [] (TextBlock lines)
  = if eligible dtl lines then [heading_of pn lines] else [].
Proof.
  unfold heading_block, eligible, heading_of. cbv zeta.
  destruct (_ || _); [reflexivity|].
  destruct (_is_obviously_not_heading _); [reflexivity|].
  destruct (_is_likely_heading _ _ _ _); reflexivity.
Qed.

Lemma page_headings_In page pn dtl hs blocks :
  get_text_dict page = Ok blocks ->
  _extract_headings_from_page page pn dtl = Ok hs ->
  forall h,
    In h hs
    <-> exists lines,
         In (TextBlock lines) blocks /\ eligible dtl lines = true
         /\ h = heading_of pn lines.
Proof.
  intros Hd. unfold _extract_headings_from_page. rewrite Hd.
  cbn [mbind result_bind]. intros [= <-] h.
  rewrite (fold_left_emit _ _ (heading_block_emit pn dtl)). simpl.
  rewrite in_flat_map. split.
  - intros ([lines|] & Hb & Hh); [|destruct Hh].
    rewrite heading_block_spec in Hh.
    destruct (eligible dtl lines) eqn:E; [|destruct Hh].
    destruct Hh as [<-|[]]. eauto.
  - intros (lines & Hb & E & ->). exists (TextBlock lines).
    split; [exact Hb|]. rewrite heading_block_spec, E. now left.
Qed.

(** The page loop returns the candidates it started with, followed by the
    eligible blocks of every page under that page's number. *)
Lemma page_loop_In pages :
  forall pn dtl acc res,
    page_loop pages pn dtl acc = Ok res ->
    forall h,
      In h res
      <-> In h acc
          \/ exists k page blocks lines,
               nth_error pages k = Some page
               /\ get_text_dict page = Ok blocks
               /\ In (TextBlock lines) blocks
               /\ eligible dtl lines = true
               /\ h = heading_of (pn + k) lines.
Proof.
  induction pages as [|p pages IH]; intros pn dtl acc res; simpl.
  - intros [= <-] h. split; [now left|].
    intros [H|(k & page & ? & ? & Hk & _)]; [exact H|].
    destruct k; discriminate.
  - destruct (_extract_headings_from_page p pn dtl) as [hs|e] eqn:E;
      cbn [mbind result_bind]; [|discriminate].
    assert (Hd : exists blocks, get_text_dict p = Ok blocks).
    { unfold _extract_headings_from_page in E.
      destruct (get_text_dict p) as [blocks|]; [eauto | discriminate]. }
    destruct Hd as (blocks & Hd).
    intros Hloop h. rewrite (IH _ _ _ _ Hloop h), in_app_iff.
    rewrite (page_headings_In _ _ _ _ _ Hd E h). split.
    + intros [[H|(lines & Hb & He & ->)]|(k & page & bs & lines & Hk & R)].
      * now left.
      * right. exists 0%nat, p, blocks, lines.
        rewrite Nat.add_0_r. auto.
      * right. exists (S k), page, bs, lines.
        replace (pn + S k)%nat with (S pn + k)%nat by lia. auto.
    + intros [H|(k & page & bs & lines & Hk & Hg & Hb & He & ->)].
      * left. now left.
      * destruct k as [|k]; simpl in Hk.
        -- inversion Hk; subst page. rewrite Hd in Hg.
           inversion Hg; subst bs. left. right.
           exists lines. rewrite Nat.add_0_r. auto.
        -- right. exists k, page, bs, lines.
           replace (S pn + k)%nat with (pn + S k)%nat by lia. auto.
Qed.

End Provenance.

(** ** Stripped text *)

Section Strip.

Lemma rstrip_idempotent s : PyStr.rstrip (PyStr.rstrip s) = PyStr.rstrip s.
Proof.
  induction s as [|c s IH]; [reflexivity|]. simpl.
  destruct (PyStr.rstrip s) as [|d r] eqn:E.
  - destruct (PyStr.isspace c) eqn:Ec; [reflexivity|].
    simpl. now rewrite Ec.
  - simpl. simpl in IH. now rewrite IH.
Qed.

(** [rstrip] leaves a first character that is no whitespace in place. *)
Lemma rstrip_head c s :
  PyStr.isspace c = false ->
  exists r, PyStr.rstrip (String c s) = String c r.
Proof.
  intros Hc. simpl. destruct (PyStr.rstrip s) as [|d r].
  - rewrite Hc. eauto.
  - eauto.
Qed.

Lemma lstrip_head s :
  PyStr.lstrip s = ""
  \/ exists c r, PyStr.lstrip s = String c r /\ PyStr.isspace c = false.
Proof.
  induction s as [|c s IH]; [now left|]. simpl.
  destruct (PyStr.isspace c) eqn:E; [exact IH|].
  right. eauto.
Qed.

Lemma strip_idempotent s : PyStr.strip (PyStr.strip s) = PyStr.strip s.
Proof.
  unfold PyStr.strip.
  destruct (lstrip_head s) as [->|(c & r & -> & Hc)]; [reflexivity|].
  destruct (rstrip_head c r Hc) as (r' & Hr).
  assert (Hl : PyStr.lstrip (PyStr.rstrip (String c r))
               = PyStr.rstrip (String c r)).
  { rewrite Hr. simpl. now rewrite Hc. }
  rewrite Hl. apply rstrip_idempotent.
Qed.

End Strip.

(** ** From an outline entry back to its block *)

Section Sources.

Lemma filter_headings_source hs dtl e :
  In e (_filter_headings hs dtl) ->
  exists h,
    In h hs /\ text e = h_text h
    /\ (page e = h_page h \/ page e = 0%nat).
Proof.
  unfold _filter_headings. destruct hs as [|h0 hs0]; [intros []|].
  set (hs := h0 :: hs0).
  destruct (_ || _).
  - destruct (single_heading_cases "pathway options" (unique_headings hs))
      as [[-> _]|(h & Hin & _ & ->)]; [intros []|].
    intros [<-|[]]. exists h. split; [now apply unique_headings_In|].
    split; [reflexivity | now right].
  - destruct (_ || _).
    + destruct (single_heading_cases "hope to see you there"
                  (unique_headings hs))
        as [[-> _]|(h & Hin & _ & ->)]; [intros []|].
      intros [<-|[]]. exists h. split; [now apply unique_headings_In|].
      split; [reflexivity | now right].
    + intros Hin.
      apply (Permutation_in _ (sort_by_page_perm _)) in Hin.
      apply in_map_iff in Hin as (h & <- & Hh).
      exists h. split; [now apply unique_headings_In|].
      split; [reflexivity | now left].
Qed.

(** Every entry of a returned outline stems from an eligible text block
    of the opened document. *)
Lemma outline_entry_source fs pdf_path w r w' e :
  extract_outline fs pdf_path w = (Ok r, w') -> In e (outline r) ->
  exists pages dtl k pg blocks lines,
    fs pdf_path = Ok pages
    /\ nth_error pages k = Some pg
    /\ get_text_dict pg = Ok blocks
    /\ In (TextBlock lines) blocks
    /\ eligible dtl lines = true
    /\ text e = h_text (heading_of k lines)
    /\ (page e = k \/ page e = 0%nat).
Proof.
  intros Hrun Hin.
  apply extract_outline_outline in Hrun as [E|(pages & Hfs & Hh)];
    [rewrite E in Hin; destruct Hin|].
  apply extract_headings_cases in Hh
    as (dtl & _ & [[_ E]|(_ & hs & Hloop & E)]);
    rewrite E in Hin; [destruct Hin|].
  apply filter_headings_source in Hin as (h & Hh & Et & Ep).
  cbn [doc_pages] in Hloop.
  apply (page_loop_In _ _ _ _ _ Hloop) in Hh
    as [[]|(k & pg & blocks & lines & Hk & Hd & Hb & He & ->)].
  exists pages, dtl, k, pg, blocks, lines. simpl in Ep. auto 10.
Qed.

Lemma eligible_length dtl lines :
  eligible dtl lines = true ->
  (3 <= PyStr.len (h_text (heading_of 0 lines)) <= 200)%nat.
Proof.
  unfold eligible, heading_of. cbv zeta. cbn [h_text].
  intros H. apply andb_true_iff in H as [H _].
  apply andb_true_iff in H as [H _].
  apply negb_true_iff, orb_false_iff in H as [H Hhi].
  apply orb_false_iff in H as [_ Hlo].
  apply Nat.ltb_ge in Hhi, Hlo. lia.
Qed.

Lemma eligible_kept dtl lines :
  eligible dtl lines = true ->
  accepted dtl (heading_of 0 lines).
Proof.
  unfold eligible, heading_of, accepted. cbv zeta. cbn [h_text h_size h_bold].
  intros H. apply andb_true_iff in H as [H Hl].
  apply andb_true_iff in H as [_ Hx].
  apply negb_true_iff in Hx. auto.
Qed.

End Sources.

(** X2: the text of every outline entry is a stripped text, unchanged by
    another [strip()], of at least 3 and at most 200 characters. *)
Theorem X2_outline_text_is_stripped_and_bounded
    (fs : Files) (pdf_path : string) (w w' : World) (r : Outline) (e : Entry) :
  extract_outline fs pdf_path w = (Ok r, w') ->
  In e (outline r) ->
  PyStr.strip (text e) = text e
  /\ (3 <= PyStr.len (text e) <= 200)%nat.
Proof.
  intros Hrun Hin.
  destruct (outline_entry_source _ _ _ _ _ _ Hrun Hin)
    as (pages & dtl & k & pg & blocks & lines & _ & _ & _ & _ & He & -> & _).
  split.
  - unfold heading_of. cbv zeta. cbn [h_text]. apply strip_idempotent.
  - exact (eligible_length _ _ He).
Qed.

Lemma X2_outline_text_is_stripped_and_bounded_witness :
  PyStr.strip "Executive Summary" = "Executive Summary"
  /\ (3 <= PyStr.len "Executive Summary" <= 200)%nat.
Proof.
  apply (X2_outline_text_is_stripped_and_bounded sample_files "rfp.pdf" w0 w0
           {| title := "Executive Summary";
              outline :=
                [ {| level := H1; text := "Executive Summary"; page := 0 |};
                  {| level := H3; text := "Project Timeline"; page := 0 |};
                  {| level := H2; text := "Appendix A"; page := 0 |};
                  {| level := H1; text := "Background of the programme";
                     page := 1 |} ] |}
           {| level := H1; text := "Executive Summary"; page := 0 |}).
  - vm_compute; reflexivity.
  - simpl; tauto.
Defined.

(** X3: the page of every outline entry is the index of a page of the
    document: it is below the number of pages. *)
Theorem X3_outline_pages_exist
    (fs : Files) (pdf_path : string) (w w' : World) (r : Outline) (e : Entry)
    (pages : list Page) :
  fs pdf_path = Ok pages ->
  extract_outline fs pdf_path w = (Ok r, w') ->
  In e (outline r) ->
  (page e < length pages)%nat.
Proof.
  intros Hfs Hrun Hin.
  destruct (outline_entry_source _ _ _ _ _ _ Hrun Hin)
    as (pages' & dtl & k & pg & blocks & lines & Hfs' & Hk & _ & _ & _ & _ & Hp).
  rewrite Hfs in Hfs'. inversion Hfs'; subst pages'.
  assert (Hlt : (k < length pages)%nat).
  { apply nth_error_Some. rewrite Hk. discriminate. }
  destruct Hp as [->| ->]; lia.
Qed.

Lemma X3_outline_pages_exist_witness : (1 < length rfp_pages)%nat.
Proof.
  apply (X3_outline_pages_exist sample_files "rfp.pdf" w0 w0
           {| title := "Executive Summary";
              outline :=
                [ {| level := H1; text := "Executive Summary"; page := 0 |};
                  {| level := H3; text := "Project Timeline"; page := 0 |};
                  {| level := H2; text := "Appendix A"; page := 0 |};
                  {| level := H1; text := "Background of the programme";
                     page := 1 |} ] |}
           {| level := H1; text := "Background of the programme";
              page := 1 |}).
  - vm_compute; reflexivity.
  - vm_compute; reflexivity.
  - simpl; tauto.
Defined.

(** ** The ways [extract_outline] ends *)

(** X4: [extract_outline] ends in one of five ways. (1) Opening and both
    extractions succeed: their results are returned and the world is as
    it was, the handle closed and nothing printed. (2) [fitz.open]
    raises an [Exception] and the error line is printed: the empty
    record is returned and no handle is open. (3) The document opens,
    the title or the heading extraction raises an [Exception] and the
    error line is printed: the empty record is returned (a title
    already found is dropped) and the handle stays open. (4) An
    [Exception] is caught but printing the error line raises: that
    second exception reaches the caller, nothing is printed, and the
    handle stays open if the document was opened. (5) What is raised is
    outside class [Exception]: it reaches the caller, nothing is
    printed, and the handle stays open if the document was opened. *)
Theorem X4_five_outcomes (fs : Files) (pdf_path : string) (w : World) :
  (exists pages t o,
      fs pdf_path = Ok pages
      /\ _extract_title {| doc_name := pdf_path; doc_pages := pages |} = Ok t
      /\ _extract_headings {| doc_name := pdf_path; doc_pages := pages |}
         = Ok o
      /\ extract_outline fs pdf_path w
         = (Ok {| title := t; outline := o |}, w))
  \/ (exists e,
        fs pdf_path = Raise e
        /\ is_Exception e = true
        /\ stdout_error w (error_line pdf_path e) = None
        /\ extract_outline fs pdf_path w
           = (Ok empty_record, printed (error_line pdf_path e) w))
  \/ (exists pages e,
        fs pdf_path = Ok pages
        /\ processing_raises pdf_path pages e
        /\ is_Exception e = true
        /\ stdout_error w (error_line pdf_path e) = None
        /\ extract_outline fs pdf_path w
           = (Ok empty_record,
              printed (error_line pdf_path e) (opened pdf_path w)))
  \/ (exists e e',
        is_Exception e = true
        /\ stdout_error w (error_line pdf_path e) = Some e'
        /\ (fs pdf_path = Raise e
            /\ extract_outline fs pdf_path w = (Raise e', w)
            \/ exists pages,
                fs pdf_path = Ok pages
                /\ processing_raises pdf_path pages e
                /\ extract_outline fs pdf_path w
                   = (Raise e', opened pdf_path w)))
  \/ (exists e,
        is_Exception e = false
        /\ (fs pdf_path = Raise e
            /\ extract_outline fs pdf_path w = (Raise e, w)
            \/ exists pages,
                fs pdf_path = Ok pages
                /\ processing_raises pdf_path pages e
                /\ extract_outline fs pdf_path w
                   = (Raise e, opened pdf_path w))).
Proof.
  unfold extract_outline, try_except, outline_body, fitz_open, lift,
    doc_close, print, mbind, M_bind, mret, M_ret, processing_raises,
    opened, printed, error_line.
  destruct (fs pdf_path) as [pages|e] eqn:Efs.
  - destruct (_extract_title _) as [t|e] eqn:Et.
    + destruct (_extract_headings _) as [o|e] eqn:Eh.
      * left. exists pages, t, o.
        cbn [doc_name open_docs console stdout_error remove_first].
        rewrite String.eqb_refl. destruct w. auto.
      * right. right. cbn [stdout_error console open_docs].
        destruct (is_Exception e) eqn:Ec.
        -- destruct (stdout_error w _) as [e'|] eqn:Eo.
           ++ right. left. exists e, e'.
              split; [exact Ec|]. split; [exact Eo|]. right.
              exists pages. eauto 10.
           ++ left. exists pages, e. eauto 10.
        -- right. right. exists e. split; [exact Ec|]. right.
           exists pages. eauto 10.
    + right. right. cbn [stdout_error console open_docs].
      destruct (is_Exception e) eqn:Ec.
      * destruct (stdout_error w _) as [e'|] eqn:Eo.
        -- right. left. exists e, e'.
           split; [exact Ec|]. split; [exact Eo|]. right.
           exists pages. auto 10.
        -- left. exists pages, e. auto 10.
      * right. right. exists e. split; [exact Ec|]. right.
        exists pages. auto 10.
  - right. destruct (is_Exception e) eqn:Ec.
    + destruct (stdout_error w _) as [e'|] eqn:Eo.
      * right. right. left. exists e, e'. auto 10.
      * left. exists e. auto 10.
    + right. right. right. exists e. auto 10.
Qed.

(** X5: a document without pages gives the empty record; nothing is
    printed and no handle stays open. *)
Theorem X5_document_without_pages
    (fs : Files) (pdf_path : string) (w : World) :
  fs pdf_path = Ok [] ->
  extract_outline fs pdf_path w = (Ok {| title := ""; outline := [] |}, w).
Proof.
  intros Hfs.
  unfold extract_outline, try_except, outline_body, fitz_open, lift,
    doc_close, mbind, M_bind, mret, M_ret.
  rewrite Hfs. cbn [_extract_title doc_pages].
  change (_extract_headings {| doc_name := pdf_path; doc_pages := [] |})
    with (@Ok (list Entry) []).
  cbn [doc_name open_docs console remove_first].
  rewrite String.eqb_refl. destruct w. reflexivity.
Qed.

Lemma X5_document_without_pages_witness :
  extract_outline blank_files "blank.pdf" w0
  = (Ok {| title := ""; outline := [] |}, w0).
Proof.
  apply (X5_document_without_pages blank_files "blank.pdf" w0).
  reflexivity.
Defined.

(** ** Where a title comes from *)

Section TitleSource.

Lemma above_16_14 o : above o 16%Q = true -> above o 14%Q = true.
Proof.
  destruct o as [q|]; simpl; [|discriminate].
  rewrite !Qgt_bool_spec. intros H.
  apply Qlt_trans with 16%Q; [reflexivity | exact H].
Qed.

(** A score above 2 needs a bold span, or a font above 14 together with
    a top coordinate below 200. *)
Lemma candidate_score_above_2 sp :
  (2 < candidate_score sp)%Z ->
  any_bold sp = true
  \/ above (max_font_size sp) 14%Q = true /\ below (min_top sp) 200%Q = true.
Proof.
  unfold candidate_score.
  destruct (any_bold sp); [now left|].
  destruct (below (min_top sp) 200%Q).
  - destruct (above (max_font_size sp) 16%Q) eqn:E16.
    + intros _. right. split; [now apply above_16_14 | reflexivity].
    + destruct (above (max_font_size sp) 14%Q); [now right | lia].
  - destruct (above (max_font_size sp) 16%Q);
      [|destruct (above (max_font_size sp) 14%Q)]; lia.
Qed.

Lemma page0_candidates_In blocks c :
  In c (page0_candidates blocks) ->
  exists lines,
    In (TextBlock lines) blocks
    /\ c = (PyStr.strip (joined_text (block_spans lines)), block_spans lines)
    /\ (10 < PyStr.len c.1 < 200)%nat.
Proof.
  unfold page0_candidates. rewrite in_flat_map.
  intros ([lines|] & Hb & Hc); [|destruct Hc].
  unfold page0_candidate in Hc. cbv zeta in Hc.
  destruct (_ && _) eqn:E; [|destruct Hc].
  destruct Hc as [<-|[]]. exists lines. split; [exact Hb|].
  split; [reflexivity|]. cbn [fst].
  apply andb_true_iff in E as [E1 E2].
  apply Nat.ltb_lt in E1, E2. lia.
Qed.

End TitleSource.

(** X6: a title that is not empty is the stripped text of a text block
    of the first page, with more than 10 and fewer than 200 characters;
    the block has a bold span, or a font size above 14 together with a
    span whose top coordinate is below 200. *)
Theorem X6_title_comes_from_first_page
    (doc : Document) (t : string) :
  _extract_title doc = Ok t ->
  t <> "" ->
  exists first_page rest blocks lines,
    doc_pages doc = first_page :: rest
    /\ get_text_dict first_page = Ok blocks
    /\ In (TextBlock lines) blocks
    /\ t = PyStr.strip (joined_text (block_spans lines))
    /\ (10 < PyStr.len t < 200)%nat
    /\ (any_bold (block_spans lines) = true
        \/ above (max_font_size (block_spans lines)) 14%Q = true
           /\ below (min_top (block_spans lines)) 200%Q = true).
Proof.
  unfold _extract_title.
  destruct (doc_pages doc) as [|first_page rest]; [intros [= <-]; congruence|].
  destruct (get_text_dict first_page) as [blocks|e] eqn:Ed;
    cbn [mbind result_bind]; [|discriminate].
  rewrite title_candidates_spec. intros [= <-] Hne.
  destruct (pick_title_spec (page0_candidates blocks))
    as [[_ E]|(before & c & after & Hsplit & _ & _ & E)];
    rewrite E in Hne |- *; [congruence|].
  destruct (2 <? candidate_score c.2)%Z eqn:Hs; [|congruence].
  apply Z.ltb_lt in Hs.
  assert (Hin : In c (page0_candidates blocks))
    by (rewrite Hsplit; apply in_or_app; right; now left).
  apply page0_candidates_In in Hin as (lines & Hb & -> & Hlen).
  cbn [fst snd] in *.
  exists first_page, rest, blocks, lines.
  repeat split; try assumption; try reflexivity; try lia.
  now apply candidate_score_above_2.
Qed.

Lemma X6_title_comes_from_first_page_witness :
  exists first_page rest blocks lines,
    doc_pages rfp_doc = first_page :: rest
    /\ get_text_dict first_page = Ok blocks
    /\ In (TextBlock lines) blocks
    /\ "Executive Summary" = PyStr.strip (joined_text (block_spans lines))
    /\ (10 < PyStr.len "Executive Summary" < 200)%nat
    /\ (any_bold (block_spans lines) = true
        \/ above (max_font_size (block_spans lines)) 14%Q = true
           /\ below (min_top (block_spans lines)) 200%Q = true).
Proof.
  apply (X6_title_comes_from_first_page rfp_doc "Executive Summary").
  - vm_compute; reflexivity.
  - discriminate.
Defined.

(** ** The single-heading profiles *)

Section SingleHeading.

Lemma single_heading_first keyword before h after :
  Forall (fun k => icontains keyword (h_text k) = false) before ->
  icontains keyword (h_text h) = true ->
  single_heading keyword (before ++ h :: after)
  = [ {| level := H1; text := h_text h; page := 0 |} ].
Proof.
  unfold icontains. intros Hb Hh.
  induction Hb as [|x before Hx _ IH]; simpl.
  - now rewrite Hh.
  - now rewrite Hx.
Qed.

End SingleHeading.

(** X7: in a pathway flyer or an RSVP invite the outline is made from
    the first unique candidate that contains the phrase: the candidates
    before it do not contain it, the ones after it are dropped, and the
    entry is put on page 0 whatever page the candidate was found on. *)
Theorem X7_single_heading_is_first_match
    (doc : Document) (dtl : string) (hs before after : list Heading)
    (h : Heading) :
  doc_text_lower_of doc = Ok dtl ->
  classify dtl = PathwayFlyer \/ classify dtl = RsvpInvite ->
  page_loop (doc_pages doc) 0 dtl [] = Ok hs ->
  unique_headings hs = before ++ h :: after ->
  Forall (fun k => icontains (profile_phrase (classify dtl)) (h_text k) = false)
         before ->
  icontains (profile_phrase (classify dtl)) (h_text h) = true ->
  _extract_headings doc
  = Ok [ {| level := H1; text := h_text h; page := 0 |} ].
Proof.
  intros Ht Hprofile Hloop Hsplit Hb Hh.
  destruct (classify_single dtl Hprofile) as [Hform Hfilter].
  rewrite (extract_headings_run _ _ _ Ht Hform Hloop), Hfilter, Hsplit.
  now rewrite single_heading_first.
Qed.

Lemma X7_single_heading_is_first_match_witness :
  _extract_headings flyer_doc
  = Ok [ {| level := H1; text := "Pathway Options"; page := 0 |} ].
Proof.
  apply (X7_single_heading_is_first_match flyer_doc flyer_text_lower
           flyer_headings
           [ {| h_text := "WELCOME EVERYONE"; h_size := 12; h_bold := false;
                h_page := 0 |} ]
           [ {| h_text := "REGULAR PATHWAY"; h_size := 12; h_bold := false;
                h_page := 1 |} ]
           {| h_text := "Pathway Options"; h_size := 20; h_bold := true;
              h_page := 1 |}).
  - vm_compute; reflexivity.
  - left; vm_compute; reflexivity.
  - vm_compute; reflexivity.
  - vm_compute; reflexivity.
  - repeat constructor.
  - vm_compute; reflexivity.
Defined.

(** ** Discovery order *)

Section DiscoveryOrder.

Lemma sorted_app {A} (R : A -> A -> Prop) l1 l2 :
  StronglySorted R l1 -> StronglySorted R l2 ->
  (forall a b, In a l1 -> In b l2 -> R a b) ->
  StronglySorted R (l1 ++ l2).
Proof.
  intros H1 H2 H12. induction H1 as [|x l1 Hs IH Hall]; simpl; [exact H2|].
  constructor.
  - apply IH. intros a b Ha Hb. apply H12; [now right | exact Hb].
  - apply Forall_app. split; [exact Hall|].
    apply List.Forall_forall. intros b Hb. apply H12; [now left | exact Hb].
Qed.

Lemma sorted_app_tail {A} (R : A -> A -> Prop) l1 l2 :
  StronglySorted R (l1 ++ l2) -> StronglySorted R l2.
Proof.
  induction l1 as [|x l1 IH]; simpl; [trivial|].
  intros H. apply StronglySorted_inv in H as [H _]. now apply IH.
Qed.

Lemma same_page_sorted pn hs :
  Forall (fun h => h_page h = pn) hs -> StronglySorted hpage_le hs.
Proof.
  induction 1 as [|h hs Hh Hall IH]; constructor; [exact IH|].
  eapply Forall_impl; [exact Hall|]. unfold hpage_le. simpl. intros; lia.
Qed.

(** The page loop appends, page after page: what it adds is in page
    order and starts at the current page number. *)
Lemma page_loop_tail pages :
  forall pn dtl acc res,
    page_loop pages pn dtl acc = Ok res ->
    exists tail,
      res = acc ++ tail
      /\ StronglySorted hpage_le tail
      /\ Forall (fun h => (pn <= h_page h)%nat) tail.
Proof.
  induction pages as [|p pages IH]; intros pn dtl acc res; simpl.
  - intros [= <-]. exists []. rewrite app_nil_r. repeat constructor.
  - destruct (_extract_headings_from_page p pn dtl) as [hs|e] eqn:E;
      cbn [mbind result_bind]; [|discriminate].
    assert (Hpn : Forall (fun h => h_page h = pn) hs).
    { assert (Hd : exists blocks, get_text_dict p = Ok blocks).
      { unfold _extract_headings_from_page in E.
        destruct (get_text_dict p) as [blocks|]; [eauto | discriminate]. }
      destruct Hd as (blocks & Hd). apply List.Forall_forall. intros h Hh.
      apply (page_headings_In _ _ _ _ _ Hd E) in Hh as (lines & _ & _ & ->).
      reflexivity. }
    intros Hloop. apply IH in Hloop as (tail & -> & Hs & Hge).
    exists (hs ++ tail). split; [now rewrite app_assoc|]. split.
    + apply sorted_app; [now apply same_page_sorted with pn | exact Hs|].
      intros a b Ha Hb. rewrite List.Forall_forall in Hpn, Hge.
      apply Hpn in Ha. apply Hge in Hb. unfold hpage_le. lia.
    + apply Forall_app. split.
      * eapply Forall_impl; [exact Hpn|]. simpl. intros; lia.
      * eapply Forall_impl; [exact Hge|]. simpl. intros; lia.
Qed.

Lemma page_loop_sorted pages dtl hs :
  page_loop pages 0 dtl [] = Ok hs -> StronglySorted hpage_le hs.
Proof.
  intros H. apply page_loop_tail in H as (tail & -> & Hs & _). exact Hs.
Qed.

Lemma keep_first_sorted earlier hs :
  StronglySorted hpage_le hs ->
  StronglySorted hpage_le (keep_first earlier hs).
Proof.
  intros H. revert earlier.
  induction H as [|x hs Hs IH Hall]; intros earlier; simpl; [constructor|].
  destruct (existsb _ earlier); [apply IH|].
  constructor; [apply IH|].
  apply List.Forall_forall. intros h Hh.
  apply keep_first_In in Hh as [Hh _].
  rewrite List.Forall_forall in Hall. now apply Hall.
Qed.

Lemma sort_by_page_id l : StronglySorted page_le l -> sort_by_page l = l.
Proof.
  induction 1 as [|e l Hs IH Hall]; simpl; [reflexivity|].
  rewrite IH. destruct l as [|x xs]; [reflexivity|]. simpl.
  apply Forall_cons in Hall as [Hx _]. unfold page_le in Hx.
  apply Nat.leb_le in Hx. now rewrite Hx.
Qed.

Lemma to_entry_sorted dtl hs :
  StronglySorted hpage_le hs ->
  StronglySorted page_le (map (to_entry dtl) hs).
Proof.
  induction 1 as [|h hs Hs IH Hall]; simpl; constructor; [exact IH|].
  apply Forall_map. exact Hall.
Qed.

(** In the first list of candidates with a given text, nothing before a
    kept candidate has its stripped text. *)
Lemma keep_first_first earlier hs h :
  In h (keep_first earlier hs) ->
  exists before after,
    hs = before ++ h :: after
    /\ Forall (fun k => PyStr.strip (h_text k) <> PyStr.strip (h_text h))
              before.
Proof.
  revert earlier. induction hs as [|x hs IH]; intros earlier; simpl.
  - intros [].
  - destruct (existsb (String.eqb (PyStr.strip (h_text x))) earlier) eqn:E.
    + intros Hin. pose proof (keep_first_In _ _ _ Hin) as [_ Hnew].
      apply IH in Hin as (before & after & -> & Hb).
      exists (x :: before), after. split; [reflexivity|].
      constructor; [|exact Hb].
      intros Heq. apply Hnew. rewrite <- Heq. now apply existsb_eqb_In.
    + intros [<-|Hin].
      * exists [], hs. split; [reflexivity | constructor].
      * pose proof (keep_first_In _ _ _ Hin) as [_ Hnew].
        apply IH in Hin as (before & after & -> & Hb).
        exists (x :: before), after. split; [reflexivity|].
        constructor; [|exact Hb].
        intros Heq. apply Hnew. rewrite <- Heq. now left.
Qed.

Lemma page_loop_stripped pages dtl hs h :
  page_loop pages 0 dtl [] = Ok hs -> In h hs ->
  PyStr.strip (h_text h) = h_text h.
Proof.
  intros Hloop Hin.
  apply (page_loop_In _ _ _ _ _ Hloop) in Hin
    as [[]|(k & pg & blocks & lines & _ & _ & _ & _ & ->)].
  apply strip_idempotent.
Qed.

Lemma filter_headings_sorting hs dtl :
  PyStr.contains "pathway options" dtl
  || PyStr.contains "stem pathways" dtl = false ->
  PyStr.contains "hope to see you" dtl || PyStr.contains "rsvp" dtl = false ->
  _filter_headings hs dtl
  = sort_by_page (map (to_entry dtl) (unique_headings hs)).
Proof.
  intros Hpath Hrsvp. unfold _filter_headings.
  destruct hs as [|h0 hs0]; [reflexivity|]. now rewrite Hpath, Hrsvp.
Qed.

End DiscoveryOrder.

Lemma sorting_branch_outline doc dtl hs :
  doc_text_lower_of doc = Ok dtl ->
  is_form_document dtl = false ->
  PyStr.contains "pathway options" dtl
  || PyStr.contains "stem pathways" dtl = false ->
  PyStr.contains "hope to see you" dtl || PyStr.contains "rsvp" dtl = false ->
  page_loop (doc_pages doc) 0 dtl [] = Ok hs ->
  _extract_headings doc = Ok (map (to_entry dtl) (unique_headings hs)).
Proof.
  intros Ht Hform Hpath Hrsvp Hloop.
  rewrite (extract_headings_run _ _ _ Ht Hform Hloop).
  rewrite filter_headings_sorting by assumption.
  rewrite sort_by_page_id; [reflexivity|].
  apply to_entry_sorted. rewrite unique_headings_keep_first.
  apply keep_first_sorted. eapply page_loop_sorted. exact Hloop.
Qed.

(** X8: outside the form and the single-heading profiles the sort by
    page changes nothing: the page loop finds the candidates in page
    order, so the outline is the list of the unique candidates, each
    turned into an entry, in the order of discovery. *)
Theorem X8_outline_in_discovery_order
    (doc : Document) (dtl : string) (hs : list Heading) :
  doc_text_lower_of doc = Ok dtl ->
  is_form_document dtl = false ->
  PyStr.contains "pathway options" dtl
  || PyStr.contains "stem pathways" dtl = false ->
  PyStr.contains "hope to see you" dtl || PyStr.contains "rsvp" dtl = false ->
  page_loop (doc_pages doc) 0 dtl [] = Ok hs ->
  _extract_headings doc = Ok (map (to_entry dtl) (unique_headings hs))
  /\ sort_by_page (map (to_entry dtl) (unique_headings hs))
     = map (to_entry dtl) (unique_headings hs).
Proof.
  intros Ht Hform Hpath Hrsvp Hloop.
  split; [now apply sorting_branch_outline|].
  apply sort_by_page_id, to_entry_sorted.
  rewrite unique_headings_keep_first.
  apply keep_first_sorted. eapply page_loop_sorted. exact Hloop.
Qed.

Lemma X8_outline_in_discovery_order_witness :
  _extract_headings rfp_doc
  = Ok (map (to_entry rfp_text_lower) (unique_headings rfp_headings))
  /\ sort_by_page (map (to_entry rfp_text_lower) (unique_headings rfp_headings))
     = map (to_entry rfp_text_lower) (unique_headings rfp_headings).
Proof.
  apply (X8_outline_in_discovery_order rfp_doc rfp_text_lower rfp_headings).
  - vm_compute; reflexivity.
  - vm_compute; reflexivity.
  - vm_compute; reflexivity.
  - vm_compute; reflexivity.
  - vm_compute; reflexivity.
Defined.

(** X9: outside the form and the single-heading profiles every candidate
    text appears in the outline, and an entry has the text, the page and
    the level of the first candidate with that text: no earlier
    candidate has it. *)
Theorem X9_entry_is_first_occurrence
    (doc : Document) (dtl : string) (hs : list Heading) :
  doc_text_lower_of doc = Ok dtl ->
  is_form_document dtl = false ->
  PyStr.contains "pathway options" dtl
  || PyStr.contains "stem pathways" dtl = false ->
  PyStr.contains "hope to see you" dtl || PyStr.contains "rsvp" dtl = false ->
  page_loop (doc_pages doc) 0 dtl [] = Ok hs ->
  exists o,
    _extract_headings doc = Ok o
    /\ (forall h, In h hs -> In (h_text h) (map text o))
    /\ (forall e, In e o ->
          exists before h after,
            hs = before ++ h :: after
            /\ e = to_entry dtl h
            /\ Forall (fun k => h_text k <> h_text h) before).
Proof.
  intros Ht Hform Hpath Hrsvp Hloop.
  exists (map (to_entry dtl) (unique_headings hs)).
  split; [now apply sorting_branch_outline|]. split.
  - intros h Hin. rewrite map_text_to_entry, unique_headings_keep_first.
    destruct (keep_first_complete [] hs h Hin) as [[]|H].
    apply in_map_iff in H as (k & Ek & Hk). apply in_map_iff. exists k.
    split; [|exact Hk].
    pose proof (keep_first_In _ _ _ Hk) as [Hk' _].
    rewrite (page_loop_stripped _ _ _ _ Hloop Hk') in Ek.
    rewrite (page_loop_stripped _ _ _ _ Hloop Hin) in Ek. exact Ek.
  - intros e He. apply in_map_iff in He as (h & <- & Hh).
    rewrite unique_headings_keep_first in Hh.
    pose proof (keep_first_In _ _ _ Hh) as [Hh' _].
    apply keep_first_first in Hh as (before & after & Hsplit & Hb).
    exists before, h, after. split; [exact Hsplit|]. split; [reflexivity|].
    rewrite List.Forall_forall in Hb |- *. intros k Hk.
    specialize (Hb k Hk).
    assert (Hkin : In k hs)
      by (rewrite Hsplit; apply in_or_app; now left).
    rewrite (page_loop_stripped _ _ _ _ Hloop Hkin) in Hb.
    rewrite (page_loop_stripped _ _ _ _ Hloop Hh') in Hb. exact Hb.
Qed.

Lemma X9_entry_is_first_occurrence_witness :
  exists o,
    _extract_headings rfp_doc = Ok o
    /\ (forall h, In h rfp_headings -> In (h_text h) (map text o))
    /\ (forall e, In e o ->
          exists before h after,
            rfp_headings = before ++ h :: after
            /\ e = to_entry rfp_text_lower h
            /\ Forall (fun k => h_text k <> h_text h) before).
Proof.
  apply (X9_entry_is_first_occurrence rfp_doc rfp_text_lower rfp_headings).
  - vm_compute; reflexivity.
  - vm_compute; reflexivity.
  - vm_compute; reflexivity.
  - vm_compute; reflexivity.
  - vm_compute; reflexivity.
Defined.

(** ** Blocks that stand out *)

Section StandOut.

Lemma stands_out_likely dtl lines :
  stands_out lines = true ->
  _is_likely_heading (PyStr.strip (acc_text (heading_scan lines)))
    (acc_size (heading_scan lines)) (acc_bold (heading_scan lines)) dtl
  = true.
Proof.
  unfold stands_out, _is_likely_heading. cbv zeta.
  destruct (Re.matches Re.numbered_heading _); [reflexivity|].
  destruct (_ && _); [reflexivity|].
  destruct (_ && _); [reflexivity|].
  destruct (Qgt_bool _ 16%Q); [reflexivity | discriminate].
Qed.

Lemma stands_out_eligible dtl lines :
  (3 <= PyStr.len (PyStr.strip (acc_text (heading_scan lines))) <= 200)%nat ->
  _is_obviously_not_heading (PyStr.strip (acc_text (heading_scan lines)))
  = false ->
  stands_out lines = true ->
  eligible dtl lines = true.
Proof.
  intros Hlen Hkeep Hout. unfold eligible. cbv zeta.
  rewrite Hkeep, (stands_out_likely dtl lines Hout).
  assert (E1 : (PyStr.len (PyStr.strip (acc_text (heading_scan lines))) <? 3)%nat
               = false) by (apply Nat.ltb_ge; lia).
  assert (E2 : (200 <? PyStr.len (PyStr.strip (acc_text (heading_scan lines))))%nat
               = false) by (apply Nat.ltb_ge; lia).
  rewrite E1, E2.
  destruct (PyStr.strip (acc_text (heading_scan lines))) as [|c t];
    [simpl in Hlen; lia | reflexivity].
Qed.

End StandOut.

(** X10: outside the form and the single-heading profiles, a text block
    whose stripped text has 3 to 200 characters, passes the exclusion
    rules and stands out (capitals with more than 5 characters, bold
    above 14, or any font above 16) is listed whatever the document
    says: the outline has an entry with its text, on its page or on an
    earlier page where the same text was found first. *)
Theorem X10_standing_out_block_is_listed
    (doc : Document) (dtl : string) (hs : list Heading)
    (k : nat) (pg : Page) (blocks : list Block) (lines : list Line) :
  doc_text_lower_of doc = Ok dtl ->
  is_form_document dtl = false ->
  PyStr.contains "pathway options" dtl
  || PyStr.contains "stem pathways" dtl = false ->
  PyStr.contains "hope to see you" dtl || PyStr.contains "rsvp" dtl = false ->
  page_loop (doc_pages doc) 0 dtl [] = Ok hs ->
  nth_error (doc_pages doc) k = Some pg ->
  get_text_dict pg = Ok blocks ->
  In (TextBlock lines) blocks ->
  (3 <= PyStr.len (PyStr.strip (acc_text (heading_scan lines))) <= 200)%nat ->
  _is_obviously_not_heading (PyStr.strip (acc_text (heading_scan lines)))
  = false ->
  stands_out lines = true ->
  exists o e,
    _extract_headings doc = Ok o
    /\ In e o
    /\ text e = PyStr.strip (acc_text (heading_scan lines))
    /\ (page e <= k)%nat.
Proof.
  intros Ht Hform Hpath Hrsvp Hloop Hk Hd Hb Hlen Hkeep Hout.
  pose proof (stands_out_eligible dtl lines Hlen Hkeep Hout) as He.
  assert (Hin : In (heading_of k lines) hs).
  { apply (page_loop_In _ _ _ _ _ Hloop). right.
    exists k, pg, blocks, lines. auto. }
  destruct (keep_first_complete [] hs _ Hin) as [[]|Hkept].
  apply in_map_iff in Hkept as (h & Eh & Hh).
  pose proof (keep_first_In _ _ _ Hh) as [Hh' _].
  rewrite (page_loop_stripped _ _ _ _ Hloop Hh') in Eh.
  rewrite (page_loop_stripped _ _ _ _ Hloop Hin) in Eh.
  exists (map (to_entry dtl) (unique_headings hs)), (to_entry dtl h).
  split; [now apply sorting_branch_outline|].
  split; [apply in_map; now rewrite unique_headings_keep_first|].
  split; [exact Eh|]. cbn [to_entry page].
  apply keep_first_first in Hh as (before & after & Hsplit & Hbefore).
  pose proof (page_loop_sorted _ _ _ Hloop) as Hsorted.
  rewrite Hsplit in Hin, Hsorted.
  apply in_app_or in Hin as [Hin|[Hin|Hin]].
  - rewrite List.Forall_forall in Hbefore. apply Hbefore in Hin.
    rewrite (page_loop_stripped _ _ _ _ Hloop Hh') in Hin.
    exfalso. apply Hin. rewrite Eh.
    unfold heading_of. cbv zeta. cbn [h_text]. apply strip_idempotent.
  - rewrite Hin. simpl. lia.
  - apply sorted_app_tail in Hsorted.
    apply StronglySorted_inv in Hsorted as [_ Hall].
    rewrite List.Forall_forall in Hall. apply Hall in Hin.
    unfold hpage_le in Hin. simpl in Hin. exact Hin.
Qed.

Lemma X10_standing_out_block_is_listed_witness :
  exists o e,
    _extract_headings rfp_doc = Ok o
    /\ In e o
    /\ text e
       = PyStr.strip
           (acc_text
              (heading_scan
                 [ {| spans := [mk_span "Project Timeline" 18 true 120] |} ]))
    /\ (page e <= 1)%nat.
Proof.
  apply (X10_standing_out_block_is_listed rfp_doc rfp_text_lower rfp_headings
           1 (mk_page "Background"
                [ one_block "Background of the programme" 12 false 60;
                  one_block "Project Timeline" 18 true 120 ])
           [ one_block "Background of the programme" 12 false 60;
             one_block "Project Timeline" 18 true 120 ]).
  - vm_compute; reflexivity.
  - vm_compute; reflexivity.
  - vm_compute; reflexivity.
  - vm_compute; reflexivity.
  - vm_compute; reflexivity.
  - reflexivity.
  - reflexivity.
  - right; left; reflexivity.
  - vm_compute; split; lia.
  - vm_compute; reflexivity.
  - vm_compute; reflexivity.
Defined.

(** ** What the exclusion rules keep out *)

Section KeptOut.

(** A text the exclusion rules let through fails every one of their
    tests. *)
Lemma kept_inversion t :
  _is_obviously_not_heading t = false ->
  existsb (fun pattern => PyStr.contains pattern t) garbage_patterns = false
  /\ Re.matches Re.rfp_year t || Re.matches Re.all_digits t = false
  /\ (100 <? PyStr.len t)%nat
     && existsb (fun char => PyStr.contains char t) ["."; ","; ";"; ":"]
     = false
  /\ PyStr.startswith t "-" = false
  /\ PyStr.startswith t "*" = false
  /\ (3 <= PyStr.len t)%nat.
Proof.
  unfold _is_obviously_not_heading.
  destruct (_ || _) eqn:E1; [discriminate|].
  destruct (existsb _ garbage_patterns) eqn:E2; [discriminate|].
  destruct (existsb _ form_patterns) eqn:E3; [discriminate|].
  destruct (Re.matches Re.rfp_year t || Re.matches Re.all_digits t) eqn:E4;
    [discriminate|].
  destruct (_ && _) eqn:E5; [discriminate|].
  destruct (startswith_bullet t || PyStr.startswith t "-"
            || PyStr.startswith t "*") eqn:E6; [discriminate|].
  intros _. apply orb_false_iff in E6 as [E6 E7].
  apply orb_false_iff in E6 as [_ E6].
  apply orb_false_iff in E1 as [E1 _]. apply Nat.ltb_ge in E1.
  auto 10.
Qed.

(** The purely numeric pattern matches every non-empty text of digits. *)
Lemma all_digits_complete t :
  t <> "" ->
  forallb Re.digit (list_ascii_of_string t) = true ->
  Re.matches Re.all_digits t = true.
Proof.
  intros Hne Hall. apply matches_true.
  destruct t as [|c t']; [congruence|].
  simpl in Hall. apply andb_true_iff in Hall as [Hc Ht].
  exists (S (String.length t'), "").
  unfold Re.all_digits. apply in_ends_seq. exists (0%nat, String c t').
  split; [now left|].
  apply in_ends_seq. exists (S (String.length t'), "").
  split; [|now left].
  unfold Re.d. rewrite ends_plus_cls, Hc.
  exact (run_states_all Re.digit t' 1 Ht).
Qed.

End KeptOut.

(** X11: no entry of a returned outline contains a web-address fragment
    ("www.", ".com", ".org") or a run of 41 or more dots, none starts
    with "-" or "*", none consists of digits only, and one with more
    than 100 characters contains none of [. , ; :]. *)
Theorem X11_outline_has_no_garbage
    (fs : Files) (pdf_path : string) (w w' : World) (r : Outline) (e : Entry) :
  extract_outline fs pdf_path w = (Ok r, w') ->
  In e (outline r) ->
  (forall pattern, In pattern garbage_patterns ->
                   PyStr.contains pattern (text e) = false)
  /\ PyStr.startswith (text e) "-" = false
  /\ PyStr.startswith (text e) "*" = false
  /\ forallb Re.digit (list_ascii_of_string (text e)) = false
  /\ ((100 < PyStr.len (text e))%nat ->
      forall char, In char ["."; ","; ";"; ":"] ->
                   PyStr.contains char (text e) = false).
Proof.
  intros Hrun Hin.
  destruct (extract_outline_from_accepted _ _ _ _ _ _ Hrun Hin)
    as (dtl & h & [Hkeep _] & ->).
  apply kept_inversion in Hkeep as (Hg & Hd & Hp & Hm & Hs & Hlen).
  split; [|split; [exact Hm|split; [exact Hs|split]]].
  - intros pattern Hpat.
    destruct (PyStr.contains pattern (h_text h)) eqn:E; [|reflexivity].
    assert (Hex : existsb (fun pattern => PyStr.contains pattern (h_text h))
                          garbage_patterns = true)
      by (apply existsb_exists; eauto).
    rewrite Hg in Hex. discriminate.
  - destruct (forallb Re.digit (list_ascii_of_string (h_text h))) eqn:E;
      [|reflexivity].
    apply orb_false_iff in Hd as [_ Hd].
    rewrite all_digits_complete in Hd; [discriminate| |exact E].
    intros E0. rewrite E0 in Hlen. simpl in Hlen. lia.
  - intros Hlong char Hchar.
    apply Nat.ltb_lt in Hlong. rewrite Hlong in Hp. cbn [andb] in Hp.
    destruct (PyStr.contains char (h_text h)) eqn:E; [|reflexivity].
    assert (Hex : existsb (fun char => PyStr.contains char (h_text h))
                          ["."; ","; ";"; ":"] = true)
      by (apply existsb_exists; eauto).
    rewrite Hp in Hex. discriminate.
Qed.

Lemma X11_outline_has_no_garbage_witness :
  (forall pattern, In pattern garbage_patterns ->
                   PyStr.contains pattern "Appendix A" = false)
  /\ PyStr.startswith "Appendix A" "-" = false
  /\ PyStr.startswith "Appendix A" "*" = false
  /\ forallb Re.digit (list_ascii_of_string "Appendix A") = false
  /\ ((100 < PyStr.len "Appendix A")%nat ->
      forall char, In char ["."; ","; ";"; ":"] ->
                   PyStr.contains char "Appendix A" = false).
Proof.
  apply (X11_outline_has_no_garbage sample_files "rfp.pdf" w0 w0
           {| title := "Executive Summary";
              outline :=
                [ {| level := H1; text := "Executive Summary"; page := 0 |};
                  {| level := H3; text := "Project Timeline"; page := 0 |};
                  {| level := H2; text := "Appendix A"; page := 0 |};
                  {| level := H1; text := "Background of the programme";
                     page := 1 |} ] |}
           {| level := H2; text := "Appendix A"; page := 0 |}).
  - vm_compute; reflexivity.
  - simpl; tauto.
Defined.

(** ** Documents of no known profile *)

Section GenericProfile.

Lemma classify_generic dtl :
  classify dtl = Generic ->
  is_form_document dtl = false
  /\ PyStr.contains "pathway options" dtl
     || PyStr.contains "stem pathways" dtl = false
  /\ PyStr.contains "hope to see you" dtl || PyStr.contains "rsvp" dtl = false
  /\ PyStr.contains "foundation level" dtl = false
  /\ PyStr.contains "rfp" dtl || PyStr.contains "digital library" dtl = false.
Proof.
  unfold classify, is_form_document.
  destruct (PyStr.contains "application form" dtl
            || PyStr.contains "government servant" dtl); [discriminate|].
  destruct (PyStr.contains "pathway options" dtl
            || PyStr.contains "stem pathways" dtl); [discriminate|].
  destruct (PyStr.contains "hope to see you" dtl
            || PyStr.contains "rsvp" dtl); [discriminate|].
  destruct (PyStr.contains "foundation level" dtl); [discriminate|].
  destruct (PyStr.contains "rfp" dtl || PyStr.contains "digital library" dtl);
    [discriminate|].
  auto.
Qed.

(** Without a profile only rules 2 to 4 can include a text that passed
    the exclusion rules. *)
Lemma generic_accepted dtl h :
  classify dtl = Generic -> accepted dtl h ->
  (PyStr.isupper (h_text h) && (5 <? PyStr.len (h_text h))%nat)
  || (h_bold h && Qgt_bool (h_size h) 14%Q)
  || Qgt_bool (h_size h) 16%Q = true.
Proof.
  intros Hg [Hkeep Hlikely].
  destruct (classify_generic dtl Hg) as (_ & Hpath & Hrsvp & Hfound & Hrfp).
  unfold _is_likely_heading in Hlikely.
  destruct (Re.matches Re.numbered_heading (h_text h)) eqn:En.
  { apply numbered_heading_excluded in En. congruence. }
  rewrite Hfound, Hrfp, Hpath, Hrsvp in Hlikely.
  destruct (_ && _); [reflexivity|].
  destruct (_ && _); [reflexivity|].
  destruct (Qgt_bool _ 16%Q); [reflexivity | discriminate].
Qed.

End GenericProfile.

(** X12: in a document of no known profile the level of an entry follows
    from the largest font of its block: H1 above 16, H2 above 14, else
    H3. An H3 entry is always a text in capitals of more than 5
    characters, and an H2 entry is bold or such a text in capitals. *)
Theorem X12_levels_without_profile
    (doc : Document) (dtl : string) (hs : list Heading) :
  doc_text_lower_of doc = Ok dtl ->
  classify dtl = Generic ->
  page_loop (doc_pages doc) 0 dtl [] = Ok hs ->
  exists o,
    _extract_headings doc = Ok o
    /\ forall e, In e o ->
         exists h,
           In h hs /\ text e = h_text h /\ page e = h_page h
           /\ level e = (if Qgt_bool (h_size h) 16%Q then H1
                         else if Qgt_bool (h_size h) 14%Q then H2 else H3)
           /\ (level e = H2 ->
               h_bold h = true
               \/ PyStr.isupper (text e) = true
                  /\ (5 < PyStr.len (text e))%nat)
           /\ (level e = H3 ->
               PyStr.isupper (text e) = true /\ (5 < PyStr.len (text e))%nat).
Proof.
  intros Ht Hg Hloop.
  destruct (classify_generic dtl Hg) as (Hform & Hpath & Hrsvp & _ & Hrfp).
  exists (map (to_entry dtl) (unique_headings hs)).
  split; [now apply sorting_branch_outline|].
  intros e He. apply in_map_iff in He as (h & <- & Hh).
  apply unique_headings_In in Hh. exists h.
  split; [exact Hh|]. split; [reflexivity|]. split; [reflexivity|].
  assert (Hacc : accepted dtl h).
  { apply page_loop_accepted in Hloop; [|constructor].
    rewrite List.Forall_forall in Hloop. now apply Hloop. }
  pose proof (generic_accepted dtl h Hg Hacc) as Hrule.
  unfold to_entry. cbn [level text]. unfold level_of. rewrite Hrfp.
  destruct (Qgt_bool (h_size h) 16%Q) eqn:E16;
    [split; [reflexivity | split; discriminate]|].
  destruct (Qgt_bool (h_size h) 14%Q) eqn:E14.
  - split; [reflexivity|]. split; [|discriminate]. intros _.
    rewrite orb_false_r, andb_true_r in Hrule.
    apply orb_true_iff in Hrule as [Hrule|Hrule]; [right | now left].
    apply andb_true_iff in Hrule as [Hu Hl]. apply Nat.ltb_lt in Hl. auto.
  - split; [reflexivity|]. split; [discriminate|]. intros _.
    rewrite orb_false_r, andb_false_r, orb_false_r in Hrule.
    apply andb_true_iff in Hrule as [Hu Hl]. apply Nat.ltb_lt in Hl. auto.
Qed.

Lemma X12_levels_without_profile_witness :
  exists o,
    _extract_headings plain_doc = Ok o
    /\ forall e, In e o ->
         exists h,
           In h plain_headings /\ text e = h_text h /\ page e = h_page h
           /\ level e = (if Qgt_bool (h_size h) 16%Q then H1
                         else if Qgt_bool (h_size h) 14%Q then H2 else H3)
           /\ (level e = H2 ->
               h_bold h = true
               \/ PyStr.isupper (text e) = true
                  /\ (5 < PyStr.len (text e))%nat)
           /\ (level e = H3 ->
               PyStr.isupper (text e) = true /\ (5 < PyStr.len (text e))%nat).
Proof.
  apply (X12_levels_without_profile plain_doc plain_text_lower plain_headings).
  - vm_compute; reflexivity.
  - vm_compute; reflexivity.
  - vm_compute; reflexivity.
Defined.

(** ** What is read from a document *)

Section Reads.

Lemma firstn_min_length {A} n (l : list A) :
  firstn (Nat.min n (length l)) l = firstn n l.
Proof.
  revert n. induction l as [|x l IH]; intros n; simpl.
  - rewrite Nat.min_0_r. now destruct n.
  - destruct n as [|n]; [reflexivity|]. simpl. now rewrite IH.
Qed.

Lemma concat_text_ext l l' :
  map get_text l = map get_text l' ->
  forall s, concat_text l s = concat_text l' s.
Proof.
  revert l'. induction l as [|p l IH]; intros [|p' l'] H s;
    try discriminate; [reflexivity|].
  simpl in H. inversion H as [[Hp Hl]]. simpl. rewrite Hp.
  destruct (get_text p'); cbn [mbind result_bind]; [|reflexivity].
  now apply IH.
Qed.

Lemma page_loop_ext l l' :
  map get_text_dict l = map get_text_dict l' ->
  forall pn dtl acc, page_loop l pn dtl acc = page_loop l' pn dtl acc.
Proof.
  revert l'. induction l as [|p l IH]; intros [|p' l'] H pn dtl acc;
    try discriminate; [reflexivity|].
  simpl in H. inversion H as [[Hp Hl]]. simpl.
  unfold _extract_headings_from_page. rewrite Hp.
  destruct (get_text_dict p'); cbn [mbind result_bind]; [|reflexivity].
  now apply IH.
Qed.

Lemma extract_title_ext name name' l l' :
  map get_text_dict l = map get_text_dict l' ->
  _extract_title {| doc_name := name; doc_pages := l |}
  = _extract_title {| doc_name := name'; doc_pages := l' |}.
Proof.
  unfold _extract_title. cbn [doc_pages].
  destruct l as [|p l], l' as [|p' l']; try discriminate; [reflexivity|].
  simpl. intros H. inversion H as [[Hp Hl]]. now rewrite Hp.
Qed.

Lemma extract_headings_ext name name' l l' :
  map get_text_dict l = map get_text_dict l' ->
  firstn 3 (map get_text l) = firstn 3 (map get_text l') ->
  _extract_headings {| doc_name := name; doc_pages := l |}
  = _extract_headings {| doc_name := name'; doc_pages := l' |}.
Proof.
  intros Hd Ht. unfold _extract_headings, doc_text_lower_of.
  cbn [doc_pages]. rewrite !firstn_min_length.
  rewrite (concat_text_ext (firstn 3 l) (firstn 3 l'))
    by (rewrite <- !firstn_map; exact Ht).
  destruct (concat_text (firstn 3 l') ""); cbn [mbind result_bind];
    [|reflexivity].
  destruct (is_form_document _); [reflexivity|].
  now rewrite (page_loop_ext l l' Hd).
Qed.

End Reads.

(** X13: [extract_outline] reads the blocks of every page but the plain
    text of the first three pages only. Two documents under the same
    path that agree on both give the same record, the same handles and
    the same output, even when the plain text of a later page differs or
    cannot be read. *)
Theorem X13_only_three_pages_of_text_are_read
    (fs fs' : Files) (pdf_path : string) (w : World)
    (pages pages' : list Page) :
  fs pdf_path = Ok pages ->
  fs' pdf_path = Ok pages' ->
  map get_text_dict pages = map get_text_dict pages' ->
  firstn 3 (map get_text pages) = firstn 3 (map get_text pages') ->
  extract_outline fs pdf_path w = extract_outline fs' pdf_path w.
Proof.
  intros Hfs Hfs' Hd Ht.
  unfold extract_outline, try_except, outline_body, fitz_open, lift,
    doc_close, mbind, M_bind, mret, M_ret.
  rewrite Hfs, Hfs'.
  rewrite (extract_title_ext pdf_path pdf_path pages pages' Hd).
  rewrite (extract_headings_ext pdf_path pdf_path pages pages' Hd Ht).
  reflexivity.
Qed.

Lemma X13_only_three_pages_of_text_are_read_witness :
  extract_outline (long_files (Ok "application form")) "long.pdf" w0
  = extract_outline (long_files (Raise (Exception "bad stream"))) "long.pdf" w0.
Proof.
  apply (X13_only_three_pages_of_text_are_read
           (long_files (Ok "application form"))
           (long_files (Raise (Exception "bad stream"))) "long.pdf" w0
           (long_pages (Ok "application form"))
           (long_pages (Raise (Exception "bad stream")))).
  - reflexivity.
  - reflexivity.
  - reflexivity.
  - reflexivity.
Defined.

(** ** The bold flag *)

(** X14: a span counts as bold exactly when bit 4 of its flags is set;
    the other bits of the flags (italic, serif, monospace and the like)
    play no part. *)
Theorem X14_bold_is_bit_four (flags : Z) :
  bold_flag flags = Z.testbit flags 4.
Proof.
  unfold bold_flag.
  assert (H : Z.land flags (2 ^ 4)
              = if Z.testbit flags 4 then (2 ^ 4)%Z else 0%Z).
  { apply Z.bits_inj'. intros n Hn.
    rewrite Z.land_spec, Z.pow2_bits_eqb by lia.
    destruct (Z.eqb_spec 4 n) as [<-|Hne].
    - rewrite andb_true_r. destruct (Z.testbit flags 4).
      + rewrite Z.pow2_bits_eqb by lia. reflexivity.
      + now rewrite Z.bits_0.
    - rewrite andb_false_r. destruct (Z.testbit flags 4).
      + rewrite Z.pow2_bits_eqb by lia. symmetry. now apply Z.eqb_neq.
      + now rewrite Z.bits_0. }
  rewrite H. destruct (Z.testbit flags 4); reflexivity.
Qed.

(** ** Form labels and form documents *)

(** X15: no entry of a returned outline contains any of the seven form
    labels, whatever the case of its letters. *)
Theorem X15_outline_has_no_form_label
    (fs : Files) (pdf_path : string) (w w' : World) (r : Outline) (e : Entry)
    (label : string) :
  extract_outline fs pdf_path w = (Ok r, w') ->
  In e (outline r) ->
  In label form_patterns ->
  icontains label (text e) = false.
Proof.
  intros Hrun Hin Hlabel.
  destruct (extract_outline_from_accepted _ _ _ _ _ _ Hrun Hin)
    as (dtl & h & [Hkeep _] & ->).
  now apply kept_has_no_form_label.
Qed.

Lemma X15_outline_has_no_form_label_witness :
  icontains "pay + si + npa" "Appendix A" = false.
Proof.
  apply (X15_outline_has_no_form_label sample_files "rfp.pdf" w0 w0
           {| title := "Executive Summary";
              outline :=
                [ {| level := H1; text := "Executive Summary"; page := 0 |};
                  {| level := H3; text := "Project Timeline"; page := 0 |};
                  {| level := H2; text := "Appendix A"; page := 0 |};
                  {| level := H1; text := "Background of the programme";
                     page := 1 |} ] |}
           {| level := H2; text := "Appendix A"; page := 0 |}).
  - vm_compute; reflexivity.
  - simpl; tauto.
  - simpl; tauto.
Defined.

(** X16: a form document needs its first page only. When the blocks of
    the first page and the plain text of the first three pages can be
    read, the record has the title chosen on the first page and an empty
    outline, the handle is closed and nothing is printed, even when the
    blocks of a later page cannot be read. *)
Theorem X16_form_document_reads_first_page_only
    (fs : Files) (pdf_path : string) (w : World)
    (first_page : Page) (rest : list Page) (blocks : list Block)
    (doc_text : string) :
  fs pdf_path = Ok (first_page :: rest) ->
  get_text_dict first_page = Ok blocks ->
  concat_text (firstn 3 (first_page :: rest)) "" = Ok doc_text ->
  is_form_document (PyStr.lower doc_text) = true ->
  extract_outline fs pdf_path w
  = (Ok {| title := pick_title (title_candidates blocks); outline := [] |}, w).
Proof.
  intros Hfs Hd Ht Hform.
  unfold extract_outline, try_except, outline_body, fitz_open, lift,
    doc_close, mbind, M_bind, mret, M_ret.
  rewrite Hfs.
  assert (Etitle : _extract_title
                     {| doc_name := pdf_path; doc_pages := first_page :: rest |}
                   = Ok (pick_title (title_candidates blocks))).
  { unfold _extract_title. cbn [doc_pages]. now rewrite Hd. }
  assert (Eheads : _extract_headings
                     {| doc_name := pdf_path; doc_pages := first_page :: rest |}
                   = Ok []).
  { unfold _extract_headings, doc_text_lower_of. cbn [doc_pages].
    rewrite firstn_min_length, Ht. cbn [mbind result_bind].
    now rewrite Hform. }
  rewrite Etitle, Eheads.
  cbn [doc_name open_docs console remove_first].
  rewrite String.eqb_refl. destruct w. reflexivity.
Qed.

Lemma X16_form_document_reads_first_page_only_witness :
  extract_outline damaged_form_files "form.pdf" w0
  = (Ok {| title :=
             pick_title
               (title_candidates
                  [ one_block "Application form for grant of LTC advance"
                      18 true 60;
                    one_block "PERSONAL DETAILS" 18 true 120 ]);
           outline := [] |}, w0).
Proof.
  apply (X16_form_document_reads_first_page_only damaged_form_files
           "form.pdf" w0 form_first_page
           [ {| get_text_dict := Raise (Exception "cannot load page");
                get_text := Ok "annex" |} ]
           [ one_block "Application form for grant of LTC advance" 18 true 60;
             one_block "PERSONAL DETAILS" 18 true 120 ]
           "Application form for grant of LTC advanceannex").
  - reflexivity.
  - reflexivity.
  - vm_compute; reflexivity.
  - vm_compute; reflexivity.
Defined.
